(** * env: binding process environment variables to struct fields

    A shallow embedding of [env.go] (package [env]) and the properties of
    its loaders.  Go's standard library ([strconv], [time], [reflect],
    [os], [strings]) is not part of the package: the string-to-value
    parsers are taken as an interface ([GoLib]), the few [reflect], [os]
    and [strings] operations the package calls are modelled directly. *)

From Stdlib Require Import ZArith String Ascii.
From stdpp Require Import base strings list gmap.

(** ** Go's [error] interface, [FieldError] and [StructError] *)

(** [type FieldErrorCode int]; [int] is 64 bits wide and [+=] wraps. *)
Definition FieldErrorCode := Z.

Definition wrap_int (z : Z) : Z :=
  ((z + 2 ^ 63) mod 2 ^ 64 - 2 ^ 63)%Z.

Definition ENV_VAR_NOT_FOUND : FieldErrorCode := Z.shiftl 1 0.
Definition ENV_VAR_PARSING_ERROR : FieldErrorCode := Z.shiftl 1 1.
Definition DEFAULT_VALUE_NOT_SPECIFIED : FieldErrorCode := Z.shiftl 1 2.
Definition DEFAULT_VALUE_PARSING_ERROR : FieldErrorCode := Z.shiftl 1 3.
Definition NIL : FieldErrorCode := 0%Z.

Record FieldError := mkFieldError {
  FieldName : string;
  ErrorCode : FieldErrorCode;
  ErrorMsg : string
}.

(** [FieldError{}] *)
Definition FieldError_zero : FieldError := mkFieldError "" 0%Z "".

Global Instance FieldError_eq_dec : EqDecision FieldError.
Proof. solve_decision. Defined.

(** A slice that is only ever appended to is a list; the [nil] slice is
    the empty list ([append] on a [nil] slice yields a non-[nil] one). *)
Record StructError := mkStructError {
  FieldErrors : list FieldError;
  StructErrorMsg : string
}.

Definition StructError_zero : StructError := mkStructError [] "".

(** The dynamic values an [error] takes in this package: [nil], an error
    of the standard library (only its message is ever used), a
    [FieldError] or a [StructError]. *)
Inductive error :=
| nil_error
| lib_error (msg : string)
| field_error (e : FieldError)
| struct_error (e : StructError).

Definition nl : string := String "010"%char "".

(** [fmt.Sprintf("%s\n%s", a, b)] and [fmt.Sprintf("%s\n\n%s", a, b)] *)
Definition Sprintf_s_nl_s (a b : string) : string := a +:+ nl +:+ b.
Definition Sprintf_s_nl_nl_s (a b : string) : string := a +:+ nl +:+ nl +:+ b.

(** [func (e FieldError) AddError(errorCode, errorMsg)]: the body works on
    [e], which, the receiver being a value, is the callee's own copy.  The
    function returns that copy as it stands when the body ends; Go returns
    nothing, so a caller has no way to get hold of it. *)
Definition AddError (e : FieldError) (errorCode : FieldErrorCode)
    (errorMsg : string) : FieldError :=
  let e := mkFieldError (FieldName e) (wrap_int (ErrorCode e + errorCode)) (ErrorMsg e) in
  let e := mkFieldError (FieldName e) (ErrorCode e)
             (Sprintf_s_nl_nl_s errorMsg (ErrorMsg e)) in
  e.

Definition FieldError_Error (e : FieldError) : string :=
  "Field Name : " +:+ FieldName e +:+ " " +:+ nl +:+ "Error:" +:+ nl
    +:+ ErrorMsg e +:+ nl +:+ nl.

(** [strings.Join] *)
Fixpoint Join (elems : list string) (sep : string) : string :=
  match elems with
  | [] => ""
  | [s] => s
  | s :: rest => s +:+ sep +:+ Join rest sep
  end.

Definition StructError_Error (e : StructError) : string :=
  Join (map FieldError_Error (FieldErrors e)) nl.

(** [err.Error()] *)
Definition Error (err : error) : string :=
  match err with
  | nil_error => ""
  | lib_error msg => msg
  | field_error e => FieldError_Error e
  | struct_error e => StructError_Error e
  end.

(** ** [strings.SplitN] and [os.Getenv] *)

Fixpoint skip (n : nat) (s : string) : string :=
  match n, s with
  | S k, String _ s' => skip k s'
  | _, _ => s
  end.

(** [strings.Index] followed by the two slicings [s[:m]] and
    [s[m+len(sep):]] of [genSplit]: the text before and the text after the
    first occurrence of [sep] in [s], [None] when [Index] is negative. *)
Fixpoint cut (sep s : string) : option (string * string) :=
  if String.prefix sep s then Some ("", skip (String.length sep) s)
  else match s with
       | EmptyString => None
       | String c s' =>
           match cut sep s' with
           | Some (a, b) => Some (String c a, b)
           | None => None
           end
       end.

(** The loop of [genSplit]: at most [cuts] separators are consumed, the
    last element is the unsplit remainder. *)
Fixpoint genSplit_loop (cuts : nat) (sep s : string) : list string :=
  match cuts with
  | O => [s]
  | S k =>
      match cut sep s with
      | None => [s]
      | Some (a, rest) => a :: genSplit_loop k sep rest
      end
  end.

(** [explode], the branch of [genSplit] for an empty separator, on bytes
    (Go cuts at UTF-8 sequences; the package never passes an empty
    separator). *)
Fixpoint explode (s : string) (n : nat) : list string :=
  match n, s with
  | O, _ => []
  | _, EmptyString => []
  | S O, _ => [s]
  | S k, String c s' => String c "" :: explode s' k
  end.

(** [strings.SplitN(s, sep, n)] for [n >= 0]. *)
Definition SplitN (s sep : string) (n : nat) : list string :=
  match n with
  | O => []
  | S _ =>
      if decide (sep = "") then explode s n
      else
        let n := if decide (String.length s + 1 < n) then String.length s + 1 else n in
        genSplit_loop (n - 1) sep s
  end.

(** The process environment is a finite map from names to values;
    [os.Getenv] answers [""] for a name that is not set, and for the empty
    name. *)
Definition Getenv (environ : gmap string string) (key : string) : string :=
  if decide (key = "") then "" else default "" (environ !! key).

(** ** The parts of [reflect] the package uses *)

Module reflect.

(** The kinds [validateAndSet] tells apart, and all the others. *)
Inductive otherKind :=
| Int8 | Int16 | Int32 | Int64
| Uint | Uint8 | Uint16 | Uint32 | Uint64 | Uintptr
| Float32 | Complex64 | Complex128
| Array | Chan | Func | Interface | Map | Pointer | Slice | UnsafePointer.

Inductive Kind :=
| Invalid | Bool | Int | Float64 | String | Struct
| Other (k : otherKind).

Global Instance otherKind_eq_dec : EqDecision otherKind.
Proof. solve_decision. Defined.

Global Instance Kind_eq_dec : EqDecision Kind.
Proof. solve_decision. Defined.

End reflect.

(** A struct tag in parsed form: the [key:"value"] pairs in the order
    they are written.  [Tag.Get] answers the first pair of the key, or
    [""]. *)
Definition StructTag := list (string * string).

Fixpoint Tag_Get (tag : StructTag) (key : string) : string :=
  match tag with
  | [] => ""
  | (k, v) :: rest => if decide (k = key) then v else Tag_Get rest key
  end.

(** [reflect.StructField]: [PkgPath] is empty exactly for exported
    fields. *)
Record StructField := mkStructField {
  Name : string;
  PkgPath : string;
  Tag : StructTag
}.

(** ** The standard library's parsers, as an interface *)

(** [strconv.Atoi], [strconv.ParseFloat] (the package always asks for 64
    bits), [strconv.ParseBool] and [time.Parse], each answering a value
    and an [error] as in Go, over carriers for [float64] and [time.Time]. *)
Class GoLib := {
  float64 : Type;
  Time : Type;
  Atoi : string -> Z * error;
  ParseFloat : string -> nat -> float64 * error;
  ParseBool : string -> bool * error;
  time_Parse : string -> string -> Time * error
}.

(** A call either panics or returns. *)
Inductive outcome (A : Type) :=
| Panic
| Return (a : A).
Arguments Panic {A}.
Arguments Return {A} a.

Definition ENV : string := "env".
Definition TIME_LAYOUT : string := "timeLayout".
Definition SEP : string := ",".

Section Package.
Context {lib : GoLib}.

(** ** Go values *)

(** The contents of a variable or of a struct field.  [VString], [VInt],
    [VFloat64] and [VBool] are values of kind [String], [Int], [Float64]
    and [Bool] (whatever the name of their type); [VTime] is a
    [time.Time]; [VStruct] is a value of any other struct type, with its
    fields in declaration order; [VOther] is a value of one of the
    remaining kinds, which the package never looks into. *)
#[warnings="-register-all"]
Inductive value :=
| VBool (b : bool)
| VInt (n : Z)
| VFloat64 (f : float64)
| VString (s : string)
| VTime (t : Time)
| VStruct (fs : list (StructField * value))
| VOther (k : reflect.otherKind) (repr : N).

(** [time.Time] is itself a struct, of three unexported untagged fields.
    Their contents are not represented apart from the [Time] they make
    up. *)
Definition Time_fields : list (StructField * value) :=
  [ (mkStructField "wall" "time" [], VOther reflect.Uint64 0);
    (mkStructField "ext" "time" [], VOther reflect.Int64 0);
    (mkStructField "loc" "time" [], VOther reflect.Pointer 0) ].

Definition fieldsOf (v : value) : list (StructField * value) :=
  match v with
  | VStruct fs => fs
  | VTime _ => Time_fields
  | _ => []
  end.

Definition kindOf (v : value) : reflect.Kind :=
  match v with
  | VBool _ => reflect.Bool
  | VInt _ => reflect.Int
  | VFloat64 _ => reflect.Float64
  | VString _ => reflect.String
  | VTime _ => reflect.Struct
  | VStruct _ => reflect.Struct
  | VOther k _ => reflect.Other k
  end.

(** [reflect.Value]: the zero Value, or a handle on a variable with its
    present contents and the two flags [CanSet] reads (addressable,
    reached through an unexported field).  Writing through the handle
    gives the handle with the new contents; the caller puts them back
    where the handle points. *)
Inductive Value :=
| zeroValue
| mkValue (v : value) (flagAddr flagRO : bool).

Definition IsValid (v : Value) : bool :=
  match v with zeroValue => false | mkValue _ _ _ => true end.

Definition CanSet (v : Value) : bool :=
  match v with
  | zeroValue => false
  | mkValue _ flagAddr flagRO => flagAddr && negb flagRO
  end.

Definition Value_Kind (v : Value) : reflect.Kind :=
  match v with
  | zeroValue => reflect.Invalid
  | mkValue x _ _ => kindOf x
  end.

(** [v.Type() == reflect.TypeOf(time.Time{})] *)
Definition Type_is_Time (v : Value) : bool :=
  match v with
  | mkValue (VTime _) _ _ => true
  | _ => false
  end.

(** [v.Type().NumField()], [v.Type().Field(i)] and [v.Field(i)] for a [v]
    of kind [Struct] and [i] below [NumField], as at the package's calls
    (reflect panics elsewhere). *)
Definition NumField (v : Value) : nat :=
  match v with
  | zeroValue => 0
  | mkValue x _ _ => length (fieldsOf x)
  end.

Definition Type_Field (v : Value) (i : nat) : StructField :=
  match v with
  | zeroValue => mkStructField "" "" []
  | mkValue x _ _ =>
      match fieldsOf x !! i with
      | Some (sf, _) => sf
      | None => mkStructField "" "" []
      end
  end.

Definition Value_Field (v : Value) (i : nat) : Value :=
  match v with
  | zeroValue => zeroValue
  | mkValue x flagAddr flagRO =>
      match fieldsOf x !! i with
      | Some (sf, fv) =>
          mkValue fv flagAddr (flagRO || negb (bool_decide (PkgPath sf = "")))
      | None => zeroValue
      end
  end.

(** [SetString], [SetInt], [SetFloat], [SetBool] and [Set], on a Value
    that can be set and has the kind or type of the argument (the
    package's setters assume it, and [validateAndSet] has checked it). *)
Definition assign (v : Value) (x : value) : Value :=
  match v with
  | zeroValue => zeroValue
  | mkValue _ flagAddr flagRO => mkValue x flagAddr flagRO
  end.

Definition SetString (v : Value) (x : string) : Value := assign v (VString x).
Definition SetInt (v : Value) (x : Z) : Value := assign v (VInt x).
Definition SetFloat (v : Value) (x : float64) : Value := assign v (VFloat64 x).
Definition SetBool (v : Value) (x : bool) : Value := assign v (VBool x).
Definition Set_Time (v : Value) (x : Time) : Value := assign v (VTime x).

(** What the argument of a loader can be: the [nil] interface, a value
    that is not a pointer, a [nil] pointer, or a pointer to a variable
    (given by the variable's contents). *)
Inductive target :=
| nilInterface
| nonPointer (v : value)
| nilPointer
| pointerTo (v : value).

(** [reflect.ValueOf(ptr).Elem()]: panics unless [ptr] is a pointer; the
    zero Value for a [nil] pointer; else the addressable pointee. *)
Definition ValueOf_Elem (ptr : target) : outcome Value :=
  match ptr with
  | nilInterface => Panic
  | nonPointer _ => Panic
  | nilPointer => Return zeroValue
  | pointerTo v => Return (mkValue v true false)
  end.

(** The variable behind [ptr] after the writes made through its handle. *)
Definition stored (ptr : target) (elem : Value) : target :=
  match ptr, elem with
  | pointerTo _, mkValue v _ _ => pointerTo v
  | _, _ => ptr
  end.

(** The struct [v] after the writes made through the handle of its
    [i]-th field.  (A [time.Time] has no field that can be written.) *)
Definition with_field (v : Value) (i : nat) (f : Value) : Value :=
  match v, f with
  | mkValue (VStruct fs) flagAddr flagRO, mkValue x _ _ =>
      match fs !! i with
      | Some (sf, _) => mkValue (VStruct (<[i := (sf, x)]> fs)) flagAddr flagRO
      | None => v
      end
  | _, _ => v
  end.

(** ** The package *)

Record fieldData := mkFieldData {
  envVarName : string;
  defaultVal : string;
  strVal : string;
  timeLayout : string;
  field : Value
}.

(** [fieldData{}] *)
Definition fieldData_zero : fieldData := mkFieldData "" "" "" "" zeroValue.

Definition set_envVarName (d : fieldData) (x : string) : fieldData :=
  mkFieldData x (defaultVal d) (strVal d) (timeLayout d) (field d).
Definition set_defaultVal (d : fieldData) (x : string) : fieldData :=
  mkFieldData (envVarName d) x (strVal d) (timeLayout d) (field d).
Definition set_strVal (d : fieldData) (x : string) : fieldData :=
  mkFieldData (envVarName d) (defaultVal d) x (timeLayout d) (field d).
Definition set_timeLayout (d : fieldData) (x : string) : fieldData :=
  mkFieldData (envVarName d) (defaultVal d) (strVal d) x (field d).
Definition set_field (d : fieldData) (x : Value) : fieldData :=
  mkFieldData (envVarName d) (defaultVal d) (strVal d) (timeLayout d) x.

(** The setters take [*fieldData] and write through it: they answer the
    record after the call next to the [error]. *)
Definition setter := fieldData -> string -> fieldData * error.

Definition setStrField : setter := fun _fieldData valueToSet =>
  (set_field _fieldData (SetString (field _fieldData) valueToSet), nil_error).

Definition setIntField : setter := fun _fieldData valueToSet =>
  let '(intVal, err) := Atoi valueToSet in
  match err with
  | nil_error => (set_field _fieldData (SetInt (field _fieldData) intVal), nil_error)
  | _ => (_fieldData, err)
  end.

Definition setFloatField : setter := fun _fieldData valueToSet =>
  let '(floatVal, err) := ParseFloat valueToSet 64 in
  match err with
  | nil_error => (set_field _fieldData (SetFloat (field _fieldData) floatVal), nil_error)
  | _ => (_fieldData, err)
  end.

Definition setBoolField : setter := fun _fieldData valueToSet =>
  let '(boolVal, err) := ParseBool valueToSet in
  match err with
  | nil_error => (set_field _fieldData (SetBool (field _fieldData) boolVal), nil_error)
  | _ => (_fieldData, err)
  end.

Definition setTimeField : setter := fun _fieldData valueToSet =>
  let '(timeVal, err) := time_Parse (timeLayout _fieldData) valueToSet in
  match err with
  | nil_error => (set_field _fieldData (Set_Time (field _fieldData) timeVal), nil_error)
  | _ => (_fieldData, err)
  end.

Section WithEnvironment.
Variable environ : gmap string string.

(** The tail of [setField], from [if _fieldData.defaultVal != ""] on.
    Every [fe.AddError(...)] of [setField] is a call on a copy of [fe]:
    the copy is dropped when the call returns and [fe] is what it was. *)
Definition setField_default (_fieldData : fieldData) (setFunc : setter)
    (fe : FieldError) : fieldData * FieldError :=
  if negb (bool_decide (defaultVal _fieldData = "")) then
    let '(_fieldData, err) := setFunc _fieldData (defaultVal _fieldData) in
    match err with
    | nil_error => (_fieldData, fe)
    | _ =>
        let _ := AddError fe DEFAULT_VALUE_PARSING_ERROR
                   (Sprintf_s_nl_s "Error while parsing the default value. Ignoring the field..."
                      (Error err)) in
        (_fieldData, fe)
    end
  else
    let _ := AddError fe DEFAULT_VALUE_NOT_SPECIFIED
               "Default value not specified. Ignoring the field." in
    (_fieldData, fe).

Definition setField (_fieldData : fieldData) (setFunc : setter)
    : fieldData * FieldError :=
  let _fieldData := set_strVal _fieldData (Getenv environ (envVarName _fieldData)) in
  let fe := FieldError_zero in
  if negb (bool_decide (strVal _fieldData = "")) then
    let '(_fieldData, err) := setFunc _fieldData (strVal _fieldData) in
    match err with
    | nil_error => (_fieldData, fe)
    | _ =>
        let _ := AddError fe ENV_VAR_PARSING_ERROR
                   (Sprintf_s_nl_s "Error parsing env variable.Trying to set default value..."
                      (Error err)) in
        setField_default _fieldData setFunc fe
    end
  else
    let _ := AddError fe ENV_VAR_NOT_FOUND
               "Env Variable not found. Trying to set default value" in
    setField_default _fieldData setFunc fe.

Definition validateAndSet (_fieldData : fieldData) (withTime : bool)
    : fieldData * FieldError :=
  if IsValid (field _fieldData) then
    if CanSet (field _fieldData) then
      match Value_Kind (field _fieldData) with
      | reflect.String => setField _fieldData setStrField
      | reflect.Int => setField _fieldData setIntField
      | reflect.Float64 => setField _fieldData setFloatField
      | reflect.Bool => setField _fieldData setBoolField
      | _ =>
          if withTime && Type_is_Time (field _fieldData)
          then setField _fieldData setTimeField
          else (_fieldData, FieldError_zero)
      end
    else (_fieldData, FieldError_zero)
  else (_fieldData, FieldError_zero).

Definition loadEnvVar (ptr : target) (envVarName defaultVal : string)
    (withTime : bool) (timeLayout : string) : outcome (target * error) :=
  match ValueOf_Elem ptr with
  | Panic => Panic
  | Return elem =>
      let _fieldData := mkFieldData envVarName defaultVal "" timeLayout elem in
      let '(_fieldData, _fieldError) := validateAndSet _fieldData withTime in
      let ptr := stored ptr (field _fieldData) in
      if bool_decide (_fieldError <> FieldError_zero) then
        let _fieldError :=
          mkFieldError envVarName (ErrorCode _fieldError) (ErrorMsg _fieldError) in
        Return (ptr, field_error _fieldError)
      else Return (ptr, nil_error)
  end.

(** The field data [loadEnvVars] builds in one turn of its loop, from
    [value.Type().Field(i)] and [value.Field(i)]. *)
Definition fieldData_of (sf : StructField) (f : Value) (force withTime : bool)
    : fieldData :=
  let envVar := SplitN (Tag_Get (Tag sf) ENV) SEP 2 in
  let _fieldData := fieldData_zero in
  let _fieldData :=
    if bool_decide (1 <= length envVar)
    then set_envVarName _fieldData (nth 0 envVar "") else _fieldData in
  let _fieldData :=
    if bool_decide (2 <= length envVar)
    then set_defaultVal _fieldData (nth 1 envVar "") else _fieldData in
  let _fieldData :=
    if bool_decide (envVarName _fieldData = "") && force
    then set_envVarName _fieldData (Name sf) else _fieldData in
  let _fieldData :=
    if withTime
    then set_timeLayout _fieldData (Tag_Get (Tag sf) TIME_LAYOUT)
    else _fieldData in
  set_field _fieldData f.

(** One turn of the loop of [loadEnvVars], on the struct and the
    [StructError] collected so far. *)
Definition loadEnvVars_body (force withTime : bool) (i : nat)
    (st : Value * StructError) : Value * StructError :=
  let '(value, err) := st in
  let _fieldData :=
    fieldData_of (Type_Field value i) (Value_Field value i) force withTime in
  if negb (bool_decide (envVarName _fieldData = "")) then
    let '(_fieldData, _fieldError) := validateAndSet _fieldData withTime in
    let value := with_field value i (field _fieldData) in
    if bool_decide (_fieldError <> FieldError_zero) then
      let _fieldError :=
        mkFieldError (Name (Type_Field value i)) (ErrorCode _fieldError)
          (ErrorMsg _fieldError) in
      (value, mkStructError (FieldErrors err ++ [_fieldError]) (StructErrorMsg err))
    else (value, err)
  else (value, err).

(** [for i := from; i < from + count; i++ { body }] *)
Fixpoint for_range {St : Type} (count from : nat) (body : nat -> St -> St)
    (st : St) : St :=
  match count with
  | O => st
  | S k => for_range k (S from) body (body from st)
  end.

Definition loadEnvVars (structPtr : target) (force withTime : bool)
    : outcome (target * error) :=
  match ValueOf_Elem structPtr with
  | Panic => Panic
  | Return value =>
      let err := StructError_zero in
      let '(value, err) :=
        if bool_decide (Value_Kind value = reflect.Struct)
        then for_range (NumField value) 0 (loadEnvVars_body force withTime) (value, err)
        else (value, err) in
      let structPtr := stored structPtr value in
      if negb (bool_decide (FieldErrors err = []))
      then Return (structPtr, struct_error err)
      else Return (structPtr, nil_error)
  end.

Definition LoadEnvVars (structPtr : target) : outcome (target * error) :=
  loadEnvVars structPtr false false.

Definition LoadEnvVarsF (structPtr : target) : outcome (target * error) :=
  loadEnvVars structPtr true false.

Definition LoadEnvVarsT (structPtr : target) : outcome (target * error) :=
  loadEnvVars structPtr false true.

Definition LoadEnvVarsTF (structPtr : target) : outcome (target * error) :=
  loadEnvVars structPtr true true.

Definition LoadEnvVar (ptr : target) (envVarName defaultVal : string)
    : outcome (target * error) :=
  loadEnvVar ptr envVarName defaultVal false "".

Definition LoadEnvVarT (ptr : target) (envVarName defaultVal timeLayout : string)
    : outcome (target * error) :=
  loadEnvVar ptr envVarName defaultVal true timeLayout.

End WithEnvironment.
End Package.

(** ** A library instance to run the package on

    [strconv.Atoi] and [strconv.ParseBool] as documented: an optional
    sign and decimal digits within the range of [int]; the twelve tokens
    of [ParseBool].  [strconv.ParseFloat] and [time.Parse] by the table
    of the literals in [env_test.go], a float being a decimal mantissa
    and exponent and a time a (year, month, day) at midnight UTC. *)

Definition quote : string := String "034"%char "".

Definition strconv_error (fn s msg : string) : error :=
  lib_error ("strconv." +:+ fn +:+ ": parsing " +:+ quote +:+ s +:+ quote +:+ ": " +:+ msg).

Definition digit_of (c : ascii) : option Z :=
  let n := Z.of_N (N_of_ascii c) in
  if (48 <=? n)%Z && (57 >=? n)%Z then Some (n - 48)%Z else None.

Fixpoint digits_from (acc : Z) (s : string) : option Z :=
  match s with
  | EmptyString => Some acc
  | String c s' =>
      match digit_of c with
      | Some d => digits_from (10 * acc + d)%Z s'
      | None => None
      end
  end.

Definition Atoi_impl (s : string) : Z * error :=
  let '(neg, body) :=
    match s with
    | String c r =>
        if Ascii.eqb c "-" then (true, r)
        else if Ascii.eqb c "+" then (false, r)
        else (false, s)
    | EmptyString => (false, s)
    end in
  match body with
  | EmptyString => (0%Z, strconv_error "Atoi" s "invalid syntax")
  | _ =>
      match digits_from 0 body with
      | None => (0%Z, strconv_error "Atoi" s "invalid syntax")
      | Some n =>
          let n := if neg then (- n)%Z else n in
          if (- 2 ^ 63 >? n)%Z
          then ((- 2 ^ 63)%Z, strconv_error "Atoi" s "value out of range")
          else if (2 ^ 63 - 1 <? n)%Z
          then ((2 ^ 63 - 1)%Z, strconv_error "Atoi" s "value out of range")
          else (n, nil_error)
      end
  end.

Definition ParseBool_impl (s : string) : bool * error :=
  if existsb (String.eqb s) ["1"; "t"; "T"; "TRUE"; "true"; "True"]
  then (true, nil_error)
  else if existsb (String.eqb s) ["0"; "f"; "F"; "FALSE"; "false"; "False"]
  then (false, nil_error)
  else (false, strconv_error "ParseBool" s "invalid syntax").

Definition ParseFloat_table (s : string) (bitSize : nat) : (Z * Z) * error :=
  if String.eqb s "3.14" then ((314, -2)%Z, nil_error)
  else ((0, 0)%Z, strconv_error "ParseFloat" s "invalid syntax").

Definition time_Parse_table (layout s : string) : (Z * Z * Z) * error :=
  if String.eqb layout "02/01/2006" && String.eqb s "01/11/2017"
  then ((2017, 11, 1)%Z, nil_error)
  else ((1, 1, 1)%Z,
        lib_error ("parsing time " +:+ quote +:+ s +:+ quote +:+ " as "
                     +:+ quote +:+ layout +:+ quote)).

Definition golib : GoLib := {|
  float64 := Z * Z;
  Time := Z * Z * Z;
  Atoi := Atoi_impl;
  ParseFloat := ParseFloat_table;
  ParseBool := ParseBool_impl;
  time_Parse := time_Parse_table
|}.

(** The environment [env_test.go] sets up. *)
Definition testEnvVarsOs : gmap string string :=
  list_to_map
    [ ("TEST_1", "VALUE_1"); ("TEST_2", "VALUE_2"); ("TEST_3", "VALUE_3");
      ("TEST_4", "VALUE_4"); ("TEST_5", "VALUE_5"); ("TEST_6", "6");
      ("TEST_TIME_1", "01/11/2017") ].

Definition exported (name : string) (tag : StructTag) : StructField :=
  mkStructField name "" tag.
Definition unexported (name : string) (tag : StructTag) : StructField :=
  mkStructField name "env" tag.

(** [Type1{}] and [Type2{}] of [env_test.go]. *)
Definition Type1_zero : value (lib := golib) :=
  VStruct
    [ (exported "Var1" [("env", "TEST_1")], VString "");
      (exported "Var2" [("env", "TEST_2")], VString "");
      (exported "Var3" [("env", "TEST_3")], VString "");
      (exported "Var4" [("env", "TEST_4")], VString "");
      (exported "Var5" [("env", "TEST_5")], VString "");
      (exported "Var6" [("env", "TEST_6")], VInt 0);
      (exported "Var7" [("env", "TEST_TIME_1"); ("timeLayout", "02/01/2006")],
       VTime (lib := golib) (1, 1, 1)%Z) ].

Definition Type1_expected : value (lib := golib) :=
  VStruct
    [ (exported "Var1" [("env", "TEST_1")], VString "VALUE_1");
      (exported "Var2" [("env", "TEST_2")], VString "VALUE_2");
      (exported "Var3" [("env", "TEST_3")], VString "VALUE_3");
      (exported "Var4" [("env", "TEST_4")], VString "VALUE_4");
      (exported "Var5" [("env", "TEST_5")], VString "VALUE_5");
      (exported "Var6" [("env", "TEST_6")], VInt 6);
      (exported "Var7" [("env", "TEST_TIME_1"); ("timeLayout", "02/01/2006")],
       VTime (lib := golib) (2017, 11, 1)%Z) ].

Definition Type2_zero : value (lib := golib) :=
  VStruct
    [ (unexported "var1" [("env", "TEST_1")], VString "");
      (unexported "var2" [("env", "TEST_2")], VString "") ].

(** ** Notions the properties are stated with *)

Section Notions.
Context {lib : GoLib}.

(** The value of the kind of [old] that the text [s] parses to, when the
    kind is one the loader converts to ([time.Time] only in a load with
    time support) and the library's parser accepts [s]. *)
Definition parsed (withTime : bool) (layout : string) (old : value)
    (s : string) : option value :=
  match old with
  | VString _ => Some (VString s)
  | VInt _ =>
      match Atoi s with (n, nil_error) => Some (VInt n) | _ => None end
  | VFloat64 _ =>
      match ParseFloat s 64 with (f, nil_error) => Some (VFloat64 f) | _ => None end
  | VBool _ =>
      match ParseBool s with (b, nil_error) => Some (VBool b) | _ => None end
  | VTime _ =>
      if withTime
      then match time_Parse layout s with (t, nil_error) => Some (VTime t) | _ => None end
      else None
  | VStruct _ => None
  | VOther _ _ => None
  end.

(** A non-empty text that parses. *)
Definition usable (withTime : bool) (layout : string) (old : value)
    (s : string) : option value :=
  if decide (s = "") then None else parsed withTime layout old s.

(** The contents of a settable variable after it has been resolved
    against the environment text [s] and the default [dflt]. *)
Definition resolved (withTime : bool) (layout : string) (old : value)
    (s dflt : string) : value :=
  match usable withTime layout old s with
  | Some v => v
  | None =>
      match usable withTime layout old dflt with
      | Some v => v
      | None => old
      end
  end.

(** The name, default and layout [loadEnvVars] binds to a struct field
    (they do not depend on the handle of the field). *)
Definition binding (sf : StructField) (force withTime : bool) : fieldData :=
  fieldData_of sf zeroValue force withTime.

(** The contents of a struct field after a load of the struct. *)
Definition loaded_field (environ : gmap string string) (force withTime : bool)
    (p : StructField * value) : StructField * value :=
  let d := binding p.1 force withTime in
  if decide (envVarName d = "") then p
  else if decide (PkgPath p.1 = "") then
    (p.1, resolved withTime (timeLayout d) p.2
            (Getenv environ (envVarName d)) (defaultVal d))
  else p.

(** A setter that converts by [conv]: it writes the converted value and
    answers [nil], or writes nothing and answers an error. *)
Definition converts_by (setFunc : setter) (conv : string -> string -> option value) : Prop :=
  forall d s,
    match conv (timeLayout d) s with
    | Some v => setFunc d s = (set_field d (assign (field d) v), nil_error)
    | None => (setFunc d s).1 = d /\ (setFunc d s).2 <> nil_error
    end.

Definition first_usable (conv : string -> option value) (s dflt : string) : option value :=
  match (if decide (s = "") then None else conv s) with
  | Some v => Some v
  | None => if decide (dflt = "") then None else conv dflt
  end.

Fixpoint no_comma (s : string) : bool :=
  match s with
  | EmptyString => true
  | String c s' => negb (Ascii.eqb c ",") && no_comma s'
  end.

End Notions.

(** ** The model on concrete inputs *)

Example Atoi_impl_samples :
  Atoi_impl "6" = (6%Z, nil_error)
  /\ Atoi_impl "-12" = ((-12)%Z, nil_error)
  /\ Atoi_impl "+007" = (7%Z, nil_error)
  /\ Atoi_impl "9223372036854775807" = ((2 ^ 63 - 1)%Z, nil_error)
  /\ snd (Atoi_impl "9223372036854775808") <> nil_error
  /\ snd (Atoi_impl "") <> nil_error
  /\ snd (Atoi_impl "-") <> nil_error
  /\ snd (Atoi_impl "1_0") <> nil_error
  /\ snd (Atoi_impl "abc") <> nil_error.
Proof. vm_compute. repeat split; discriminate. Qed.

Example ParseBool_impl_samples :
  ParseBool_impl "True" = (true, nil_error)
  /\ ParseBool_impl "0" = (false, nil_error)
  /\ snd (ParseBool_impl "yes") <> nil_error.
Proof. vm_compute. repeat split; discriminate. Qed.

Example SplitN_samples :
  SplitN "" SEP 2 = [""]
  /\ SplitN "TEST_1" SEP 2 = ["TEST_1"]
  /\ SplitN "PORT,8080" SEP 2 = ["PORT"; "8080"]
  /\ SplitN "HOSTS,a,b,c" SEP 2 = ["HOSTS"; "a,b,c"]
  /\ SplitN ",x" SEP 2 = [""; "x"]
  /\ SplitN "N," SEP 2 = ["N"; ""].
Proof. vm_compute. repeat split. Qed.

(** ** The tests of [env_test.go], run on the model *)

Example TestLoadEnvVars_WithAllExportedVariables_ShouldSetVars :
  LoadEnvVarsT testEnvVarsOs (pointerTo Type1_zero)
  = Return (pointerTo Type1_expected, nil_error).
Proof. reflexivity. Qed.

Example TestLoadEnvVars_WithAllUnExportedVariables_ShouldNotSetVariables :
  LoadEnvVars testEnvVarsOs (pointerTo Type2_zero)
  = Return (pointerTo Type2_zero, nil_error).
Proof. reflexivity. Qed.

Example TestLoadEnvVar_WithStringPtr :
  LoadEnvVar (lib := golib) testEnvVarsOs (pointerTo (VString "")) "TEST_1" ""
  = Return (pointerTo (VString "VALUE_1"), nil_error).
Proof. reflexivity. Qed.

Example TestLoadEnvVar_WithIntPtr :
  LoadEnvVar (lib := golib) testEnvVarsOs (pointerTo (VInt 0)) "TEST_6" ""
  = Return (pointerTo (VInt 6), nil_error).
Proof. reflexivity. Qed.

Example TestLoadEnvVar_WithFloatPtrDefaultValue :
  LoadEnvVar (lib := golib) testEnvVarsOs (pointerTo (VFloat64 (lib := golib) (0, 0)%Z))
    "TEST_7" "3.14"
  = Return (pointerTo (VFloat64 (lib := golib) (314, -2)%Z), nil_error).
Proof. reflexivity. Qed.

Example TestLoadEnvVarT_WithTimePtr :
  LoadEnvVarT (lib := golib) testEnvVarsOs (pointerTo (VTime (lib := golib) (1, 1, 1)%Z))
    "TEST_TIME_1" "" "02/01/2006"
  = Return (pointerTo (VTime (lib := golib) (2017, 11, 1)%Z), nil_error).
Proof. reflexivity. Qed.

(** ** Properties *)

Section Properties.
Context {lib : GoLib}.
Variable environ : gmap string string.

(** *** Errors are never recorded *)

Lemma setField_default_FieldError d setFunc fe :
  (setField_default d setFunc fe).2 = fe.
Proof.
  unfold setField_default.
  destruct (negb _); [|reflexivity].
  destruct (setFunc d (defaultVal d)) as [d' [| | |]]; reflexivity.
Qed.

Lemma setField_FieldError d setFunc :
  (setField environ d setFunc).2 = FieldError_zero.
Proof.
  unfold setField.
  destruct (negb _); cbn zeta.
  - destruct (setFunc _ _) as [d' [| | |]];
      first [reflexivity | apply setField_default_FieldError].
  - apply setField_default_FieldError.
Qed.

Lemma validateAndSet_FieldError d withTime :
  (validateAndSet environ d withTime).2 = FieldError_zero.
Proof.
  unfold validateAndSet.
  destruct (IsValid _); [|reflexivity].
  destruct (CanSet _); [|reflexivity].
  destruct (Value_Kind _); try apply setField_FieldError;
    destruct (withTime && _); first [apply setField_FieldError | reflexivity].
Qed.

(** *** What a load leaves in a field *)

Lemma setField_default_field d setFunc conv fe :
  converts_by setFunc conv ->
  field (setField_default d setFunc fe).1 =
  match (if decide (defaultVal d = "") then None else conv (timeLayout d) (defaultVal d)) with
  | Some v => assign (field d) v
  | None => field d
  end.
Proof.
  intros Hc. unfold setField_default.
  destruct (decide (defaultVal d = "")) as [E|E].
  - rewrite bool_decide_eq_true_2 by exact E. reflexivity.
  - rewrite bool_decide_eq_false_2 by exact E. cbn [negb].
    specialize (Hc d (defaultVal d)).
    destruct (conv (timeLayout d) (defaultVal d)) as [v|].
    + rewrite Hc. reflexivity.
    + destruct Hc as [H1 H2].
      destruct (setFunc d (defaultVal d)) as [d' e]; cbn in H1, H2; subst d'.
      destruct e; [contradiction| | |]; reflexivity.
Qed.

Lemma setField_field d setFunc conv :
  converts_by setFunc conv ->
  field (setField environ d setFunc).1 =
  match first_usable (conv (timeLayout d)) (Getenv environ (envVarName d)) (defaultVal d) with
  | Some v => assign (field d) v
  | None => field d
  end.
Proof.
  intros Hc. unfold setField, first_usable.
  set (s := Getenv environ (envVarName d)).
  set (d0 := set_strVal d s).
  assert (Hd0 : field d0 = field d /\ timeLayout d0 = timeLayout d
                /\ defaultVal d0 = defaultVal d /\ strVal d0 = s)
    by (destruct d; repeat split).
  destruct Hd0 as (Hf & Ht & Hdv & Hs). rewrite Hs.
  destruct (decide (s = "")) as [E|E].
  - rewrite bool_decide_eq_true_2 by exact E. cbn [negb].
    rewrite (setField_default_field d0 setFunc conv _ Hc), Ht, Hdv, Hf.
    destruct (decide (defaultVal d = "")); [reflexivity|].
    destruct (conv _ _); reflexivity.
  - rewrite bool_decide_eq_false_2 by exact E. cbn [negb].
    pose proof (Hc d0 s) as Hs0. rewrite Ht in Hs0.
    destruct (conv (timeLayout d) s) as [v|].
    + rewrite Hs0, <- Hf. reflexivity.
    + destruct Hs0 as [H1 H2].
      destruct (setFunc d0 s) as [d' e]; cbn in H1, H2; subst d'.
      assert (Hgoal : field (setField_default d0 setFunc FieldError_zero).1 =
        match (if decide (defaultVal d = "") then None else conv (timeLayout d) (defaultVal d)) with
        | Some v => assign (field d) v | None => field d end).
      { rewrite (setField_default_field d0 setFunc conv _ Hc), Ht, Hdv, Hf. reflexivity. }
      destruct e; [contradiction| | |]; cbn zeta; rewrite Hgoal;
        destruct (decide (defaultVal d = "")); try reflexivity;
        destruct (conv _ _); reflexivity.
Qed.

Lemma setStrField_converts :
  converts_by setStrField (fun _ s => Some (VString s)).
Proof. intros d s. reflexivity. Qed.

Lemma setIntField_converts :
  converts_by setIntField
    (fun _ s => match Atoi s with (n, nil_error) => Some (VInt n) | _ => None end).
Proof.
  intros d s. unfold setIntField.
  destruct (Atoi s) as [n [| | |]]; first [reflexivity | split; [reflexivity|discriminate]].
Qed.

Lemma setFloatField_converts :
  converts_by setFloatField
    (fun _ s => match ParseFloat s 64 with (f, nil_error) => Some (VFloat64 f) | _ => None end).
Proof.
  intros d s. unfold setFloatField.
  destruct (ParseFloat s 64) as [n [| | |]]; first [reflexivity | split; [reflexivity|discriminate]].
Qed.

Lemma setBoolField_converts :
  converts_by setBoolField
    (fun _ s => match ParseBool s with (b, nil_error) => Some (VBool b) | _ => None end).
Proof.
  intros d s. unfold setBoolField.
  destruct (ParseBool s) as [n [| | |]]; first [reflexivity | split; [reflexivity|discriminate]].
Qed.

Lemma setTimeField_converts :
  converts_by setTimeField
    (fun layout s =>
       match time_Parse layout s with (t, nil_error) => Some (VTime t) | _ => None end).
Proof.
  intros d s. unfold setTimeField.
  destruct (time_Parse (timeLayout d) s) as [n [| | |]];
    first [reflexivity | split; [reflexivity|discriminate]].
Qed.

Lemma resolved_first_usable withTime layout old s dflt :
  resolved withTime layout old s dflt =
  match first_usable (parsed withTime layout old) s dflt with
  | Some v => v
  | None => old
  end.
Proof.
  unfold resolved, usable, first_usable.
  destruct (decide (s = "")); [reflexivity|].
  destruct (parsed withTime layout old s); reflexivity.
Qed.

Lemma validateAndSet_field d withTime :
  field (validateAndSet environ d withTime).1 =
  match field d with
  | mkValue old a r =>
      if a && negb r
      then mkValue (resolved withTime (timeLayout d) old
                      (Getenv environ (envVarName d)) (defaultVal d)) a r
      else field d
  | zeroValue => zeroValue
  end.
Proof.
  unfold validateAndSet.
  destruct (field d) as [|old a r] eqn:Ef; [exact Ef|].
  cbn [IsValid CanSet].
  destruct (a && negb r); [|exact Ef].
  rewrite resolved_first_usable.
  destruct old; cbn [Value_Kind kindOf Type_is_Time parsed].
  - rewrite (setField_field _ _ _ setBoolField_converts), Ef.
    destruct (first_usable _ _ _); reflexivity.
  - rewrite (setField_field _ _ _ setIntField_converts), Ef.
    destruct (first_usable _ _ _); reflexivity.
  - rewrite (setField_field _ _ _ setFloatField_converts), Ef.
    destruct (first_usable _ _ _); reflexivity.
  - rewrite (setField_field _ _ _ setStrField_converts), Ef.
    destruct (first_usable _ _ _); reflexivity.
  - destruct withTime; cbn [andb].
    + rewrite (setField_field _ _ _ setTimeField_converts), Ef.
      destruct (first_usable _ _ _); reflexivity.
    + unfold first_usable.
      destruct (decide _); destruct (decide _); exact Ef.
  - rewrite andb_false_r. unfold first_usable.
    destruct (decide _); destruct (decide _); exact Ef.
  - rewrite andb_false_r. unfold first_usable.
    destruct (decide _); destruct (decide _); exact Ef.
Qed.

(** *** The single-field loader *)

Lemma bool_decide_FieldError_zero :
  bool_decide (FieldError_zero <> FieldError_zero) = false.
Proof. apply bool_decide_eq_false_2. intros H. apply H. reflexivity. Qed.

Lemma loadEnvVar_pointer old name dflt withTime layout :
  loadEnvVar environ (pointerTo old) name dflt withTime layout
  = Return (pointerTo (resolved withTime layout old (Getenv environ name) dflt),
            nil_error).
Proof.
  unfold loadEnvVar. cbn [ValueOf_Elem].
  set (d := mkFieldData name dflt "" layout (mkValue old true false)).
  pose proof (validateAndSet_FieldError d withTime) as Hfe.
  pose proof (validateAndSet_field d withTime) as Hf.
  destruct (validateAndSet environ d withTime) as [d' fe].
  cbn [fst snd] in Hfe, Hf. subst fe.
  rewrite bool_decide_FieldError_zero, Hf. reflexivity.
Qed.

Lemma loadEnvVar_nilPointer name dflt withTime layout :
  loadEnvVar environ nilPointer name dflt withTime layout
  = Return (nilPointer, nil_error).
Proof. reflexivity. Qed.

(** *** The struct loader *)

Lemma fieldData_of_field sf f force withTime :
  fieldData_of sf f force withTime
  = set_field (fieldData_of sf zeroValue force withTime) f.
Proof. reflexivity. Qed.

Lemma loadEnvVars_body_struct force withTime i fs p err :
  fs !! i = Some p ->
  loadEnvVars_body environ force withTime i (mkValue (VStruct fs) true false, err)
  = (mkValue (VStruct (<[i := loaded_field environ force withTime p]> fs)) true false,
     err).
Proof.
  intros Hi. destruct p as [sf old].
  unfold loadEnvVars_body, loaded_field.
  cbn [Type_Field Value_Field fieldsOf fst snd]. rewrite Hi. cbn [orb].
  rewrite fieldData_of_field.
  fold (binding sf force withTime).
  set (d0 := binding sf force withTime).
  set (f := mkValue old true (negb (bool_decide (PkgPath sf = "")))).
  assert (Hn : envVarName (set_field d0 f) = envVarName d0) by reflexivity.
  rewrite Hn.
  destruct (decide (envVarName d0 = "")) as [E|E].
  { rewrite bool_decide_eq_true_2 by exact E. cbn [negb].
    rewrite list_insert_id by exact Hi. reflexivity. }
  rewrite bool_decide_eq_false_2 by exact E. cbn [negb].
  pose proof (validateAndSet_FieldError (set_field d0 f) withTime) as Hfe.
  pose proof (validateAndSet_field (set_field d0 f) withTime) as Hf.
  destruct (validateAndSet environ (set_field d0 f) withTime) as [d' fe].
  cbn [fst snd] in Hfe, Hf. subst fe.
  rewrite bool_decide_FieldError_zero, Hf.
  cbn [field set_field f andb timeLayout envVarName defaultVal].
  destruct (decide (PkgPath sf = "")) as [P|P].
  - rewrite bool_decide_eq_true_2 by exact P. cbn [negb with_field].
    rewrite Hi. reflexivity.
  - rewrite bool_decide_eq_false_2 by exact P. cbn [negb with_field].
    rewrite Hi. reflexivity.
Qed.

Lemma for_range_struct force withTime count : forall from fs err,
  from + count <= length fs ->
  exists fs',
    for_range count from (loadEnvVars_body environ force withTime)
      (mkValue (VStruct fs) true false, err)
    = (mkValue (VStruct fs') true false, err)
    /\ forall j,
         fs' !! j = if decide (from <= j < from + count)
                    then loaded_field environ force withTime <$> fs !! j
                    else fs !! j.
Proof.
  induction count as [|count IH]; intros from fs err Hlen.
  - exists fs. split; [reflexivity|].
    intros j. destruct (decide _) as [H|H]; [lia|reflexivity].
  - destruct (lookup_lt_is_Some_2 fs from) as [p Hp]; [lia|].
    cbn [for_range]. rewrite (loadEnvVars_body_struct _ _ _ _ p) by exact Hp.
    destruct (IH (S from) (<[from := loaded_field environ force withTime p]> fs) err)
      as (fs' & Hrun & Hlook).
    { rewrite length_insert. lia. }
    exists fs'. split; [exact Hrun|].
    intros j. rewrite Hlook.
    destruct (decide (j = from)) as [->|Hne].
    + rewrite list_lookup_insert_eq by lia. rewrite Hp.
      destruct (decide (S from <= from < _)) as [H|H]; [lia|].
      destruct (decide (from <= from < _)) as [H'|H']; [reflexivity|lia].
    + rewrite list_lookup_insert_ne by congruence.
      destruct (decide (S from <= j < _)) as [H|H];
        destruct (decide (from <= j < _)) as [H'|H']; first [reflexivity | lia].
Qed.

Lemma loadEnvVars_struct fs force withTime :
  loadEnvVars environ (pointerTo (VStruct fs)) force withTime
  = Return (pointerTo (VStruct (loaded_field environ force withTime <$> fs)),
            nil_error).
Proof.
  unfold loadEnvVars. cbn [ValueOf_Elem Value_Kind kindOf NumField fieldsOf].
  rewrite bool_decide_eq_true_2 by reflexivity.
  destruct (for_range_struct force withTime (length fs) 0 fs StructError_zero)
    as (fs' & Hrun & Hlook); [lia|].
  rewrite Hrun. cbn [stored FieldErrors StructError_zero].
  rewrite bool_decide_eq_true_2 by reflexivity. cbn [negb].
  assert (fs' = loaded_field environ force withTime <$> fs) as ->; [|reflexivity].
  apply list_eq. intros j.
  rewrite Hlook, list_lookup_fmap.
  destruct (decide _) as [H|H]; [reflexivity|].
  rewrite (lookup_ge_None_2 fs j) by lia. reflexivity.
Qed.

Lemma loadEnvVars_Time t force withTime :
  loadEnvVars environ (pointerTo (VTime t)) force withTime
  = Return (pointerTo (VTime t), nil_error).
Proof. destruct force, withTime; reflexivity. Qed.

Lemma loadEnvVars_not_struct ptr elem force withTime :
  ValueOf_Elem ptr = Return elem ->
  Value_Kind elem <> reflect.Struct ->
  loadEnvVars environ ptr force withTime = Return (ptr, nil_error).
Proof.
  intros He Hk. unfold loadEnvVars. rewrite He.
  rewrite bool_decide_eq_false_2 by exact Hk.
  cbn [FieldErrors StructError_zero].
  rewrite bool_decide_eq_true_2 by reflexivity. cbn [negb].
  destruct ptr; cbn in He; try discriminate; injection He as <-; reflexivity.
Qed.

(** *** Facts about [resolved], [Getenv] and [SplitN] *)

Lemma Getenv_nonempty key : Getenv environ key <> "" -> key <> "".
Proof. unfold Getenv. destruct (decide (key = "")); congruence. Qed.

Lemma resolved_environment withTime layout old s dflt v :
  s <> "" -> parsed withTime layout old s = Some v ->
  resolved withTime layout old s dflt = v.
Proof.
  intros Hs Hp. unfold resolved, usable.
  destruct (decide (s = "")); [contradiction|]. rewrite Hp. reflexivity.
Qed.

Lemma resolved_default withTime layout old s dflt v :
  s = "" \/ parsed withTime layout old s = None ->
  dflt <> "" -> parsed withTime layout old dflt = Some v ->
  resolved withTime layout old s dflt = v.
Proof.
  intros Hs Hd Hp. unfold resolved, usable.
  destruct (decide (dflt = "")); [contradiction|]. rewrite Hp.
  destruct (decide (s = "")); [reflexivity|].
  destruct Hs as [Hs|Hs]; [contradiction|]. rewrite Hs. reflexivity.
Qed.

Lemma resolved_cases withTime layout old s dflt :
  let new := resolved withTime layout old s dflt in
  new = old
  \/ (s <> "" /\ parsed withTime layout old s = Some new)
  \/ (dflt <> "" /\ parsed withTime layout old dflt = Some new).
Proof.
  unfold resolved, usable.
  destruct (decide (s = "")) as [Es|Es].
  - destruct (decide (dflt = "")) as [Ed|Ed]; [left; reflexivity|].
    destruct (parsed withTime layout old dflt) eqn:Ep; [|left; reflexivity].
    right; right. split; [exact Ed|reflexivity].
  - destruct (parsed withTime layout old s) eqn:Ep.
    + right; left. split; [exact Es|reflexivity].
    + destruct (decide (dflt = "")) as [Ed|Ed]; [left; reflexivity|].
      destruct (parsed withTime layout old dflt) eqn:Ep'; [|left; reflexivity].
      right; right. split; [exact Ed|reflexivity].
Qed.

Lemma loaded_field_exported force withTime sf old :
  PkgPath sf = "" ->
  envVarName (binding sf force withTime) <> "" ->
  loaded_field environ force withTime (sf, old)
  = (sf, resolved withTime (timeLayout (binding sf force withTime)) old
           (Getenv environ (envVarName (binding sf force withTime)))
           (defaultVal (binding sf force withTime))).
Proof.
  intros Hp Hn. unfold loaded_field. cbn [fst snd].
  destruct (decide (envVarName _ = "")); [contradiction|].
  destruct (decide (PkgPath sf = "")); [reflexivity|contradiction].
Qed.

Lemma loaded_field_unexported force withTime sf old :
  PkgPath sf <> "" ->
  loaded_field environ force withTime (sf, old) = (sf, old).
Proof.
  intros Hp. unfold loaded_field. cbn [fst snd].
  destruct (decide (envVarName _ = "")); [reflexivity|].
  destruct (decide (PkgPath sf = "")); [contradiction|reflexivity].
Qed.

Lemma cut_cons sep c s :
  cut sep (String c s)
  = if String.prefix sep (String c s)
    then Some ("", skip (String.length sep) (String c s))
    else match cut sep s with
         | Some (a, b) => Some (String c a, b)
         | None => None
         end.
Proof. reflexivity. Qed.

Lemma cut_first_comma name dflt :
  no_comma name = true ->
  cut SEP (name +:+ SEP +:+ dflt) = Some (name, dflt).
Proof.
  induction name as [|c name IH]; intros Hn; [destruct dflt; reflexivity|].
  cbn [no_comma] in Hn. apply andb_true_iff in Hn as [Hc Hn].
  apply negb_true_iff, Ascii.eqb_neq in Hc.
  change (String c name +:+ SEP +:+ dflt) with (String c (name +:+ SEP +:+ dflt)).
  rewrite cut_cons, (IH Hn).
  assert (Hp : String.prefix SEP (String c (name +:+ SEP +:+ dflt)) = false).
  { unfold SEP. cbn [String.prefix].
    destruct (ascii_dec "," c) as [E|E]; [congruence|reflexivity]. }
  rewrite Hp. reflexivity.
Qed.

Lemma SplitN_first_comma name dflt :
  no_comma name = true ->
  SplitN (name +:+ SEP +:+ dflt) SEP 2 = [name; dflt].
Proof.
  intros Hn. unfold SplitN.
  destruct (decide (SEP = "")) as [E|_]; [discriminate E|].
  assert (Hlen : exists k, String.length (name +:+ SEP +:+ dflt) = S k)
    by (destruct name; eexists; reflexivity).
  destruct Hlen as [k Hk]. rewrite Hk.
  destruct (decide (S k + 1 < 2)) as [H|H]; [lia|].
  cbn [Nat.sub genSplit_loop]. rewrite (cut_first_comma _ _ Hn). reflexivity.
Qed.

Lemma loadEnvVars_returns_nil ptr elem force withTime :
  ValueOf_Elem ptr = Return elem ->
  exists ptr', loadEnvVars environ ptr force withTime = Return (ptr', nil_error).
Proof.
  intros He. destruct ptr as [|v| |v]; try discriminate He.
  - exists nilPointer.
    apply (loadEnvVars_not_struct _ zeroValue); [reflexivity|discriminate].
  - destruct v as [b|n|f|s|t|fs|k r];
      try (eexists; eapply loadEnvVars_not_struct; [reflexivity|discriminate]).
    + eexists. apply loadEnvVars_Time.
    + eexists. apply loadEnvVars_struct.
Qed.

Lemma loadEnvVar_returns_nil ptr elem name dflt withTime layout :
  ValueOf_Elem ptr = Return elem ->
  exists ptr', loadEnvVar environ ptr name dflt withTime layout = Return (ptr', nil_error).
Proof.
  intros He. destruct ptr as [|v| |v]; try discriminate He.
  - eexists. apply loadEnvVar_nilPointer.
  - eexists. apply loadEnvVar_pointer.
Qed.

(** *** The claims *)

(** C3. A field of a kind the load converts to, whose environment
    variable is set to a non-empty text that parses for that kind, holds
    exactly the parsed value after the load, whatever its default, and the
    load reports no error.  First for the single-field loader
    ([LoadEnvVar], [LoadEnvVarT]), then for an exported field of a struct
    given to the struct loader ([LoadEnvVars] and its variants). *)
Theorem C3_parseable_environment_value_is_loaded :
  (forall old name dflt withTime layout v,
      Getenv environ name <> "" ->
      parsed withTime layout old (Getenv environ name) = Some v ->
      loadEnvVar environ (pointerTo old) name dflt withTime layout
      = Return (pointerTo v, nil_error))
  /\
  (forall fs force withTime i sf old v,
      fs !! i = Some (sf, old) ->
      PkgPath sf = "" ->
      Getenv environ (envVarName (binding sf force withTime)) <> "" ->
      parsed withTime (timeLayout (binding sf force withTime)) old
        (Getenv environ (envVarName (binding sf force withTime))) = Some v ->
      exists fs',
        loadEnvVars environ (pointerTo (VStruct fs)) force withTime
        = Return (pointerTo (VStruct fs'), nil_error)
        /\ fs' !! i = Some (sf, v)).
Proof.
  split.
  - intros old name dflt withTime layout v Hs Hp.
    rewrite loadEnvVar_pointer.
    rewrite (resolved_environment _ _ _ _ _ v Hs Hp). reflexivity.
  - intros fs force withTime i sf old v Hi Hx Hs Hp.
    eexists. split; [apply loadEnvVars_struct|].
    rewrite list_lookup_fmap, Hi. cbn [fmap option_fmap option_map].
    rewrite (loaded_field_exported _ _ _ _ Hx (Getenv_nonempty _ Hs)).
    rewrite (resolved_environment _ _ _ _ _ v Hs Hp). reflexivity.
Qed.

(** C4. A field whose environment variable is unset or empty, or set to
    a text that does not parse, and whose default is non-empty and parses,
    holds the parsed default after the load, and the load returns no
    error.  First for the single-field loader, then for an exported field
    of a struct that is bound to a variable name. *)
Theorem C4_parseable_default_is_loaded :
  (forall old name dflt withTime layout v,
      Getenv environ name = ""
      \/ parsed withTime layout old (Getenv environ name) = None ->
      dflt <> "" ->
      parsed withTime layout old dflt = Some v ->
      loadEnvVar environ (pointerTo old) name dflt withTime layout
      = Return (pointerTo v, nil_error))
  /\
  (forall fs force withTime i sf old v,
      fs !! i = Some (sf, old) ->
      PkgPath sf = "" ->
      envVarName (binding sf force withTime) <> "" ->
      Getenv environ (envVarName (binding sf force withTime)) = ""
      \/ parsed withTime (timeLayout (binding sf force withTime)) old
           (Getenv environ (envVarName (binding sf force withTime))) = None ->
      defaultVal (binding sf force withTime) <> "" ->
      parsed withTime (timeLayout (binding sf force withTime)) old
        (defaultVal (binding sf force withTime)) = Some v ->
      exists fs',
        loadEnvVars environ (pointerTo (VStruct fs)) force withTime
        = Return (pointerTo (VStruct fs'), nil_error)
        /\ fs' !! i = Some (sf, v)).
Proof.
  split.
  - intros old name dflt withTime layout v Hs Hd Hp.
    rewrite loadEnvVar_pointer.
    rewrite (resolved_default _ _ _ _ _ v Hs Hd Hp). reflexivity.
  - intros fs force withTime i sf old v Hi Hx Hn Hs Hd Hp.
    eexists. split; [apply loadEnvVars_struct|].
    rewrite list_lookup_fmap, Hi. cbn [fmap option_fmap option_map].
    rewrite (loaded_field_exported _ _ _ _ Hx Hn).
    rewrite (resolved_default _ _ _ _ _ v Hs Hd Hp). reflexivity.
Qed.

(** C5. Conversion is atomic.  Every load of a pointer returns, and the
    variable (for the single-field loader) or each field of the struct
    (for the struct loader, which keeps the fields and their order) then
    holds its prior value, or the value its non-empty environment text
    parses to, or the value its non-empty default parses to: a field is
    written only with the result of a parse that succeeded. *)
Theorem C5_conversion_is_atomic :
  (forall old name dflt withTime layout,
      exists new err,
        loadEnvVar environ (pointerTo old) name dflt withTime layout
        = Return (pointerTo new, err)
        /\ (new = old
            \/ (Getenv environ name <> ""
                /\ parsed withTime layout old (Getenv environ name) = Some new)
            \/ (dflt <> "" /\ parsed withTime layout old dflt = Some new)))
  /\
  (forall fs force withTime,
      exists fs' err,
        loadEnvVars environ (pointerTo (VStruct fs)) force withTime
        = Return (pointerTo (VStruct fs'), err)
        /\ length fs' = length fs
        /\ forall i sf old,
             fs !! i = Some (sf, old) ->
             exists new,
               fs' !! i = Some (sf, new)
               /\ (new = old
                   \/ (Getenv environ (envVarName (binding sf force withTime)) <> ""
                       /\ parsed withTime (timeLayout (binding sf force withTime)) old
                            (Getenv environ (envVarName (binding sf force withTime)))
                          = Some new)
                   \/ (defaultVal (binding sf force withTime) <> ""
                       /\ parsed withTime (timeLayout (binding sf force withTime)) old
                            (defaultVal (binding sf force withTime)) = Some new))).
Proof.
  split.
  - intros old name dflt withTime layout.
    eexists _, _. split; [apply loadEnvVar_pointer|].
    apply resolved_cases.
  - intros fs force withTime.
    eexists _, _. split; [apply loadEnvVars_struct|].
    split; [apply length_fmap|].
    intros i sf old Hi.
    rewrite list_lookup_fmap, Hi. cbn [fmap option_fmap option_map].
    unfold loaded_field. cbn [fst snd].
    destruct (decide (envVarName _ = "")); [eexists; split; [reflexivity|left; reflexivity]|].
    destruct (decide (PkgPath sf = "")); [|eexists; split; [reflexivity|left; reflexivity]].
    eexists. split; [reflexivity|]. apply resolved_cases.
Qed.

(** C6. A struct load never modifies an unexported field, whatever its
    tags; and the load of a struct whose fields are all unexported (as
    are those of [time.Time]) leaves the struct as it was and returns no
    error. *)
Theorem C6_unexported_fields_are_untouched :
  (forall fs force withTime i sf old,
      fs !! i = Some (sf, old) ->
      PkgPath sf <> "" ->
      exists fs',
        loadEnvVars environ (pointerTo (VStruct fs)) force withTime
        = Return (pointerTo (VStruct fs'), nil_error)
        /\ fs' !! i = Some (sf, old))
  /\
  (forall fs force withTime,
      Forall (fun p : StructField * value => PkgPath p.1 <> "") fs ->
      loadEnvVars environ (pointerTo (VStruct fs)) force withTime
      = Return (pointerTo (VStruct fs), nil_error))
  /\
  (forall t force withTime,
      loadEnvVars environ (pointerTo (VTime t)) force withTime
      = Return (pointerTo (VTime t), nil_error)).
Proof.
  split; [|split].
  - intros fs force withTime i sf old Hi Hx.
    eexists. split; [apply loadEnvVars_struct|].
    rewrite list_lookup_fmap, Hi. cbn [fmap option_fmap option_map].
    rewrite (loaded_field_unexported _ _ _ _ Hx). reflexivity.
  - intros fs force withTime Hall.
    rewrite loadEnvVars_struct.
    assert (loaded_field environ force withTime <$> fs = fs) as ->; [|reflexivity].
    induction Hall as [|[sf old] fs Hx Hall IH]; [reflexivity|].
    cbn [fmap list_fmap]. cbn [fst] in Hx.
    rewrite (loaded_field_unexported _ _ _ _ Hx). f_equal. exact IH.
  - intros t force withTime. apply loadEnvVars_Time.
Qed.

(** C8. In a tag [NAME,DEFAULT] only the first comma counts: when [NAME]
    holds no comma, [SplitN] cuts the tag into exactly [NAME] and
    [DEFAULT], the default bound to the field is all of [DEFAULT], further
    commas included, and the variable name bound to the field is [NAME]
    (unless [NAME] is empty and implicit names are forced, when it is the
    name of the field). *)
Theorem C8_only_the_first_comma_splits sf f force withTime name dflt :
  no_comma name = true ->
  Tag_Get (Tag sf) ENV = name +:+ SEP +:+ dflt ->
  SplitN (Tag_Get (Tag sf) ENV) SEP 2 = [name; dflt]
  /\ defaultVal (fieldData_of sf f force withTime) = dflt
  /\ (name <> "" \/ force = false ->
      envVarName (fieldData_of sf f force withTime) = name)
  /\ (name = "" -> force = true ->
      envVarName (fieldData_of sf f force withTime) = Name sf).
Proof.
  intros Hn Htag.
  assert (Hsplit : SplitN (Tag_Get (Tag sf) ENV) SEP 2 = [name; dflt])
    by (rewrite Htag; apply SplitN_first_comma, Hn).
  split; [exact Hsplit|].
  unfold fieldData_of. rewrite Hsplit.
  rewrite (bool_decide_eq_true_2 (1 <= _)) by (cbn; lia).
  rewrite (bool_decide_eq_true_2 (2 <= _)) by (cbn; lia).
  cbn [nth envVarName set_envVarName set_defaultVal fieldData_zero].
  destruct (decide (name = "")) as [E|E].
  - rewrite bool_decide_eq_true_2 by exact E. cbn [andb].
    destruct force, withTime; (split; [reflexivity|]);
      (split; [intros [H|H]; [contradiction|discriminate || reflexivity]
              |intros _ H; first [reflexivity | discriminate H]]).
  - rewrite bool_decide_eq_false_2 by exact E. cbn [andb].
    destruct withTime; (split; [reflexivity|]);
      (split; [intros _; reflexivity | intros H; contradiction]).
Qed.

(** C9, as amended.  No call of [AddError] changes the [FieldError] it is
    called on, so [setField] always answers the zero [FieldError]; hence
    each of the six entry points, given a pointer ([nil] or not), returns
    [nil].  Given anything else they panic in [Elem], and return
    nothing. *)
Theorem C9_every_load_of_a_pointer_returns_nil :
  (forall d setFunc, (setField environ d setFunc).2 = FieldError_zero)
  /\
  forall (ptr : target) (name dflt layout : string),
    match ValueOf_Elem ptr with
    | Return _ =>
        (exists p, LoadEnvVars environ ptr = Return (p, nil_error))
        /\ (exists p, LoadEnvVarsF environ ptr = Return (p, nil_error))
        /\ (exists p, LoadEnvVarsT environ ptr = Return (p, nil_error))
        /\ (exists p, LoadEnvVarsTF environ ptr = Return (p, nil_error))
        /\ (exists p, LoadEnvVar environ ptr name dflt = Return (p, nil_error))
        /\ (exists p, LoadEnvVarT environ ptr name dflt layout = Return (p, nil_error))
    | Panic =>
        LoadEnvVars environ ptr = Panic
        /\ LoadEnvVarsF environ ptr = Panic
        /\ LoadEnvVarsT environ ptr = Panic
        /\ LoadEnvVarsTF environ ptr = Panic
        /\ LoadEnvVar environ ptr name dflt = Panic
        /\ LoadEnvVarT environ ptr name dflt layout = Panic
    end.
Proof.
  split; [apply setField_FieldError|].
  intros ptr name dflt layout.
  destruct (ValueOf_Elem ptr) as [|elem] eqn:He.
  - unfold LoadEnvVars, LoadEnvVarsF, LoadEnvVarsT, LoadEnvVarsTF, LoadEnvVar,
      LoadEnvVarT, loadEnvVars, loadEnvVar.
    rewrite He. repeat split.
  - unfold LoadEnvVars, LoadEnvVarsF, LoadEnvVarsT, LoadEnvVarsTF, LoadEnvVar,
      LoadEnvVarT.
    repeat split;
      first [ apply (loadEnvVars_returns_nil _ _ _ _ He)
            | apply (loadEnvVar_returns_nil _ _ _ _ _ _ He) ].
Qed.

(** C10. When the target of a struct load is a pointer ([nil] or not)
    and what it points to is not a struct, the load returns [nil] and the
    target is what it was, whatever the environment and the flags: no
    field is looked at. *)
Theorem C10_pointer_to_a_non_struct_is_left_alone ptr elem force withTime :
  ValueOf_Elem ptr = Return elem ->
  Value_Kind elem <> reflect.Struct ->
  loadEnvVars environ ptr force withTime = Return (ptr, nil_error).
Proof. apply loadEnvVars_not_struct. Qed.

End Properties.

(** ** The claims on concrete loads *)

(** C1 on the code.  [TEST_7] is not set and no default is given: the
    variable keeps its value, but the load returns [nil], from the
    single-field loader and from the struct loader alike, where the claim
    has a field error with the default-not-specified bit.  The bit is
    added, by [AddError], to a copy of the [FieldError] only. *)
Theorem C1_unset_without_default_returns_nil :
  LoadEnvVar (lib := golib) testEnvVarsOs (pointerTo (VString "")) "TEST_7" ""
  = Return (pointerTo (VString ""), nil_error)
  /\ LoadEnvVars (lib := golib) testEnvVarsOs
       (pointerTo (VStruct [(exported "Var1" [("env", "TEST_7")], VString "")]))
     = Return (pointerTo (VStruct [(exported "Var1" [("env", "TEST_7")], VString "")]),
               nil_error)
  /\ Z.land
       (ErrorCode
          (AddError FieldError_zero DEFAULT_VALUE_NOT_SPECIFIED
             "Default value not specified. Ignoring the field."))
       DEFAULT_VALUE_NOT_SPECIFIED
     = DEFAULT_VALUE_NOT_SPECIFIED.
Proof. repeat split. Qed.

(** C2 on the code.  [TEST_1] is set to [VALUE_1], which is no integer,
    and the default is missing or no integer either: the variable keeps
    its value, but the load returns [nil], where the claim has a field
    error with the parse-error-on-value bit and one of the two default
    bits. *)
Theorem C2_unparsable_without_usable_default_returns_nil :
  (Atoi_impl "VALUE_1").2 <> nil_error
  /\ (Atoi_impl "none").2 <> nil_error
  /\ LoadEnvVar (lib := golib) testEnvVarsOs (pointerTo (VInt 0)) "TEST_1" ""
     = Return (pointerTo (VInt 0), nil_error)
  /\ LoadEnvVar (lib := golib) testEnvVarsOs (pointerTo (VInt 0)) "TEST_1" "none"
     = Return (pointerTo (VInt 0), nil_error)
  /\ LoadEnvVars (lib := golib) testEnvVarsOs
       (pointerTo (VStruct [(exported "Var1" [("env", "TEST_1,none")], VInt 0)]))
     = Return (pointerTo (VStruct [(exported "Var1" [("env", "TEST_1,none")], VInt 0)]),
               nil_error).
Proof. repeat split; discriminate. Qed.

(** C7 on the code.  The first field fails ([VALUE_1] is no integer and
    there is no default), the second is set; the load returns [nil], as
    does a load in which no field fails: the two cannot be told apart. *)
Theorem C7_failing_struct_load_returns_nil :
  LoadEnvVars (lib := golib) testEnvVarsOs
    (pointerTo (VStruct [ (exported "Var1" [("env", "TEST_1")], VInt 0);
                          (exported "Var2" [("env", "TEST_2")], VString "") ]))
  = Return (pointerTo (VStruct [ (exported "Var1" [("env", "TEST_1")], VInt 0);
                                 (exported "Var2" [("env", "TEST_2")], VString "VALUE_2") ]),
            nil_error)
  /\ LoadEnvVars (lib := golib) testEnvVarsOs
       (pointerTo (VStruct [ (exported "Var2" [("env", "TEST_2")], VString "") ]))
     = Return (pointerTo (VStruct [ (exported "Var2" [("env", "TEST_2")], VString "VALUE_2") ]),
               nil_error).
Proof. repeat split. Qed.

(** C9 as first stated fails: a struct passed by value, not by pointer,
    makes [LoadEnvVars] panic; it does not return [nil]. *)
Lemma C9_counterexample :
  LoadEnvVars (lib := golib) testEnvVarsOs (nonPointer Type1_zero) = Panic
  /\ ~ (exists p, LoadEnvVars (lib := golib) testEnvVarsOs (nonPointer Type1_zero)
                  = Return (p, nil_error)).
Proof. split; [reflexivity|]. intros [p H]. discriminate H. Qed.

Lemma C3_witness :
  loadEnvVar (lib := golib) testEnvVarsOs (pointerTo (VInt 0)) "TEST_6" "5" false ""
  = Return (pointerTo (VInt 6), nil_error)
  /\ exists fs',
       loadEnvVars testEnvVarsOs (pointerTo Type1_zero) false true
       = Return (pointerTo (VStruct fs'), nil_error)
       /\ fs' !! 6
          = Some (exported "Var7" [("env", "TEST_TIME_1"); ("timeLayout", "02/01/2006")],
                  VTime (lib := golib) (2017, 11, 1)%Z).
Proof.
  split.
  - apply (proj1 (C3_parseable_environment_value_is_loaded (lib := golib) testEnvVarsOs)).
    + vm_compute. discriminate.
    + reflexivity.
  - apply (proj2 (C3_parseable_environment_value_is_loaded (lib := golib) testEnvVarsOs)
             _ false true 6 _ (VTime (lib := golib) (1, 1, 1)%Z)).
    + reflexivity.
    + reflexivity.
    + vm_compute. discriminate.
    + reflexivity.
Defined.

Lemma C4_witness :
  loadEnvVar (lib := golib) testEnvVarsOs (pointerTo (VFloat64 (lib := golib) (0, 0)%Z))
    "TEST_7" "3.14" false ""
  = Return (pointerTo (VFloat64 (lib := golib) (314, -2)%Z), nil_error)
  /\ exists fs',
       loadEnvVars (lib := golib) testEnvVarsOs
         (pointerTo (VStruct [(exported "Port" [("env", "TEST_1,8080")], VInt 0)]))
         false false
       = Return (pointerTo (VStruct fs'), nil_error)
       /\ fs' !! 0 = Some (exported "Port" [("env", "TEST_1,8080")], VInt 8080).
Proof.
  split.
  - apply (proj1 (C4_parseable_default_is_loaded (lib := golib) testEnvVarsOs)).
    + left. reflexivity.
    + discriminate.
    + reflexivity.
  - apply (proj2 (C4_parseable_default_is_loaded (lib := golib) testEnvVarsOs)
             _ false false 0 _ (VInt 0)).
    + reflexivity.
    + reflexivity.
    + vm_compute. discriminate.
    + right. reflexivity.
    + vm_compute. discriminate.
    + reflexivity.
Defined.

Lemma C5_witness :
  (exists new err,
      loadEnvVar (lib := golib) testEnvVarsOs (pointerTo (VInt 0)) "TEST_1" "7" false ""
      = Return (pointerTo new, err)
      /\ (new = VInt 0
          \/ (Getenv testEnvVarsOs "TEST_1" <> ""
              /\ parsed false "" (VInt 0) (Getenv testEnvVarsOs "TEST_1") = Some new)
          \/ ("7" <> "" /\ parsed false "" (VInt 0) "7" = Some new)))
  /\ exists fs' err new,
       loadEnvVars testEnvVarsOs (pointerTo Type1_zero) false true
       = Return (pointerTo (VStruct fs'), err)
       /\ fs' !! 5 = Some (exported "Var6" [("env", "TEST_6")], new)
       /\ (new = VInt 0
           \/ (Getenv testEnvVarsOs "TEST_6" <> ""
               /\ parsed true "" (VInt 0) (Getenv testEnvVarsOs "TEST_6") = Some new)
           \/ ("" <> "" /\ parsed true "" (VInt 0) "" = Some new)).
Proof.
  split.
  - apply (proj1 (C5_conversion_is_atomic (lib := golib) testEnvVarsOs)).
  - destruct (proj2 (C5_conversion_is_atomic (lib := golib) testEnvVarsOs)
                (fieldsOf Type1_zero) false true)
      as (fs' & err & Hrun & _ & Hall).
    destruct (Hall 5 (exported "Var6" [("env", "TEST_6")]) (VInt 0) eq_refl)
      as (new & Hnew & Hcases).
    exists fs', err, new. split; [exact Hrun|]. split; [exact Hnew|exact Hcases].
Defined.

Lemma C6_witness :
  (exists fs',
      loadEnvVars testEnvVarsOs (pointerTo Type2_zero) true false
      = Return (pointerTo (VStruct fs'), nil_error)
      /\ fs' !! 1 = Some (unexported "var2" [("env", "TEST_2")], VString ""))
  /\ loadEnvVars testEnvVarsOs (pointerTo Type2_zero) false false
     = Return (pointerTo Type2_zero, nil_error).
Proof.
  split.
  - apply (proj1 (C6_unexported_fields_are_untouched (lib := golib) testEnvVarsOs)
             (fieldsOf Type2_zero) true false 1).
    + reflexivity.
    + discriminate.
  - apply (proj1 (proj2 (C6_unexported_fields_are_untouched (lib := golib) testEnvVarsOs))
             (fieldsOf Type2_zero) false false).
    repeat constructor; discriminate.
Defined.

Lemma C8_witness :
  no_comma "HOSTS" = true
  /\ SplitN "HOSTS,a,b,c" SEP 2 = ["HOSTS"; "a,b,c"]
  /\ defaultVal (fieldData_of (lib := golib)
                   (exported "Hosts" [("env", "HOSTS,a,b,c")]) zeroValue true false)
     = "a,b,c"
  /\ envVarName (fieldData_of (lib := golib)
                   (exported "Hosts" [("env", "HOSTS,a,b,c")]) zeroValue true false)
     = "HOSTS".
Proof.
  split; [reflexivity|].
  destruct (C8_only_the_first_comma_splits (lib := golib)
              (exported "Hosts" [("env", "HOSTS,a,b,c")]) zeroValue true false
              "HOSTS" "a,b,c" eq_refl eq_refl)
    as (Hsplit & Hdflt & Hname & _).
  split; [exact Hsplit|]. split; [exact Hdflt|].
  apply Hname. left. discriminate.
Defined.

Lemma C10_witness :
  loadEnvVars (lib := golib) testEnvVarsOs (pointerTo (VInt 5)) true true
  = Return (pointerTo (VInt 5), nil_error)
  /\ loadEnvVars (lib := golib) testEnvVarsOs nilPointer false false
     = Return (nilPointer, nil_error).
Proof.
  split.
  - apply (C10_pointer_to_a_non_struct_is_left_alone (lib := golib) testEnvVarsOs
             (pointerTo (VInt 5)) (mkValue (VInt 5) true false)).
    + reflexivity.
    + discriminate.
  - apply (C10_pointer_to_a_non_struct_is_left_alone (lib := golib) testEnvVarsOs
             nilPointer zeroValue).
    + reflexivity.
    + discriminate.
Defined.
(** ** Further properties of the loaders *)

Section Further.
Context {lib : GoLib}.
Variable environ : gmap string string.

(** *** Facts about [parsed], [resolved] and [binding] *)

Lemma parsed_result withTime layout old s v :
  parsed withTime layout old s = Some v ->
  forall layout' s', parsed withTime layout' v s' = parsed withTime layout' old s'.
Proof.
  intros Hp layout' s'. destruct old as [b|n|f|x|t|fs|k r]; cbn [parsed] in Hp.
  - destruct (ParseBool s) as [b' [| | |]]; try discriminate Hp.
    injection Hp as <-. reflexivity.
  - destruct (Atoi s) as [n' [| | |]]; try discriminate Hp.
    injection Hp as <-. reflexivity.
  - destruct (ParseFloat s 64) as [f' [| | |]]; try discriminate Hp.
    injection Hp as <-. reflexivity.
  - injection Hp as <-. reflexivity.
  - destruct withTime; [|discriminate Hp].
    destruct (time_Parse layout s) as [t' [| | |]]; try discriminate Hp.
    injection Hp as <-. reflexivity.
  - discriminate Hp.
  - discriminate Hp.
Qed.

Lemma parsed_kind withTime layout old s v :
  parsed withTime layout old s = Some v ->
  kindOf v = kindOf old
  /\ Type_is_Time (mkValue v true false) = Type_is_Time (mkValue old true false).
Proof.
  intros Hp. destruct old as [b|n|f|x|t|fs|k r]; cbn [parsed] in Hp.
  - destruct (ParseBool s) as [b' [| | |]]; try discriminate Hp.
    injection Hp as <-. split; reflexivity.
  - destruct (Atoi s) as [n' [| | |]]; try discriminate Hp.
    injection Hp as <-. split; reflexivity.
  - destruct (ParseFloat s 64) as [f' [| | |]]; try discriminate Hp.
    injection Hp as <-. split; reflexivity.
  - injection Hp as <-. split; reflexivity.
  - destruct withTime; [|discriminate Hp].
    destruct (time_Parse layout s) as [t' [| | |]]; try discriminate Hp.
    injection Hp as <-. split; reflexivity.
  - discriminate Hp.
  - discriminate Hp.
Qed.

Lemma parsed_without_time withTime withTime' layout layout' old s :
  Type_is_Time (mkValue old true false) = false ->
  parsed withTime layout old s = parsed withTime' layout' old s.
Proof. destruct old; cbn [Type_is_Time parsed]; first [reflexivity | discriminate]. Qed.

Lemma parsed_unconverted withTime layout old s :
  kindOf old <> reflect.String ->
  kindOf old <> reflect.Int ->
  kindOf old <> reflect.Float64 ->
  kindOf old <> reflect.Bool ->
  withTime && Type_is_Time (mkValue old true false) = false ->
  parsed withTime layout old s = None.
Proof.
  intros Hs Hi Hf Hb Ht.
  destruct old as [b|n|f|x|t|fs|k r]; cbn [kindOf] in *; try congruence;
    cbn [parsed]; try reflexivity.
  destruct withTime; [discriminate Ht|reflexivity].
Qed.

Lemma usable_result withTime layout old s v :
  usable withTime layout old s = Some v ->
  forall s', usable withTime layout v s' = usable withTime layout old s'.
Proof.
  unfold usable. intros Hu s'.
  destruct (decide (s = "")); [discriminate Hu|].
  destruct (decide (s' = "")); [reflexivity|].
  apply (parsed_result _ _ _ _ _ Hu).
Qed.

Lemma resolved_idempotent withTime layout old s dflt :
  resolved withTime layout (resolved withTime layout old s dflt) s dflt
  = resolved withTime layout old s dflt.
Proof.
  unfold resolved at 2 3.
  destruct (usable withTime layout old s) as [v|] eqn:Es.
  - unfold resolved. rewrite (usable_result _ _ _ _ _ Es), Es. reflexivity.
  - destruct (usable withTime layout old dflt) as [v|] eqn:Ed.
    + unfold resolved. rewrite !(usable_result _ _ _ _ _ Ed), Es, Ed. reflexivity.
    + unfold resolved. rewrite Es, Ed. reflexivity.
Qed.

Lemma resolved_kind withTime layout old s dflt :
  kindOf (resolved withTime layout old s dflt) = kindOf old
  /\ Type_is_Time (mkValue (resolved withTime layout old s dflt) true false)
     = Type_is_Time (mkValue old true false).
Proof.
  destruct (resolved_cases withTime layout old s dflt) as [H|[[_ H]|[_ H]]].
  - cbv zeta in H. rewrite H. split; reflexivity.
  - apply (parsed_kind _ _ _ _ _ H).
  - apply (parsed_kind _ _ _ _ _ H).
Qed.

Lemma resolved_neither withTime layout old s dflt :
  s = "" \/ parsed withTime layout old s = None ->
  dflt = "" \/ parsed withTime layout old dflt = None ->
  resolved withTime layout old s dflt = old.
Proof.
  intros Hs Hd. unfold resolved, usable.
  destruct (decide (s = "")) as [Es|Es].
  - destruct (decide (dflt = "")) as [Ed|Ed]; [reflexivity|].
    destruct Hd as [Hd|Hd]; [contradiction|]. rewrite Hd. reflexivity.
  - destruct Hs as [Hs|Hs]; [contradiction|]. rewrite Hs.
    destruct (decide (dflt = "")) as [Ed|Ed]; [reflexivity|].
    destruct Hd as [Hd|Hd]; [contradiction|]. rewrite Hd. reflexivity.
Qed.

Lemma resolved_without_time withTime withTime' layout layout' old s dflt :
  Type_is_Time (mkValue old true false) = false ->
  resolved withTime layout old s dflt = resolved withTime' layout' old s dflt.
Proof.
  intros Ht. unfold resolved, usable.
  rewrite (parsed_without_time withTime withTime' layout layout' old s Ht).
  rewrite (parsed_without_time withTime withTime' layout layout' old dflt Ht).
  reflexivity.
Qed.

Lemma binding_envVarName sf force withTime withTime' :
  envVarName (binding sf force withTime) = envVarName (binding sf force withTime').
Proof. destruct withTime, withTime'; reflexivity. Qed.

Lemma binding_defaultVal sf force force' withTime withTime' :
  defaultVal (binding sf force withTime) = defaultVal (binding sf force' withTime').
Proof.
  unfold binding, fieldData_of.
  destruct (bool_decide (1 <= _)), (bool_decide (2 <= _));
    cbn [envVarName set_envVarName set_defaultVal fieldData_zero];
    destruct (bool_decide (_ = "")), force, force', withTime, withTime'; reflexivity.
Qed.

Lemma binding_timeLayout sf force withTime :
  timeLayout (binding sf force withTime)
  = if withTime then Tag_Get (Tag sf) TIME_LAYOUT else "".
Proof.
  unfold binding, fieldData_of.
  destruct (bool_decide (1 <= _)), (bool_decide (2 <= _));
    cbn [envVarName set_envVarName set_defaultVal fieldData_zero];
    destruct (bool_decide (_ = "")), force, withTime; reflexivity.
Qed.


Lemma loadEnvVars_struct_lookup fs force withTime i p :
  fs !! i = Some p ->
  exists fs',
    loadEnvVars environ (pointerTo (VStruct fs)) force withTime
    = Return (pointerTo (VStruct fs'), nil_error)
    /\ fs' !! i = Some (loaded_field environ force withTime p).
Proof.
  intros Hi. eexists. split; [apply loadEnvVars_struct|].
  rewrite list_lookup_fmap, Hi. reflexivity.
Qed.

Lemma fmap_ext_lookup {A B : Type} (f g : A -> B) (l : list A) :
  (forall i x, l !! i = Some x -> f x = g x) -> f <$> l = g <$> l.
Proof.
  induction l as [|x l IH]; intros H; [reflexivity|].
  rewrite !fmap_cons, (H 0 x eq_refl), IH; [reflexivity|].
  intros i y Hi. apply (H (S i) y Hi).
Qed.

Lemma loadEnvVars_pointer_not_struct (e : gmap string string) v force withTime :
  kindOf v <> reflect.Struct ->
  loadEnvVars e (pointerTo v) force withTime = Return (pointerTo v, nil_error).
Proof.
  intros Hk. apply (loadEnvVars_not_struct e _ (mkValue v true false));
    [reflexivity|exact Hk].
Qed.

(** *** Fields that are left as they are *)

(** X1. When neither the environment text nor the default of a field can
    be used (each is empty or does not parse), the load leaves the field
    as it was and returns [nil].  For the single-field loader, and for
    every field of a struct. *)
Theorem X1_total_failure_leaves_the_field :
  (forall old name dflt withTime layout,
      Getenv environ name = ""
      \/ parsed withTime layout old (Getenv environ name) = None ->
      dflt = "" \/ parsed withTime layout old dflt = None ->
      loadEnvVar environ (pointerTo old) name dflt withTime layout
      = Return (pointerTo old, nil_error))
  /\
  (forall fs force withTime i sf old,
      fs !! i = Some (sf, old) ->
      Getenv environ (envVarName (binding sf force withTime)) = ""
      \/ parsed withTime (timeLayout (binding sf force withTime)) old
           (Getenv environ (envVarName (binding sf force withTime))) = None ->
      defaultVal (binding sf force withTime) = ""
      \/ parsed withTime (timeLayout (binding sf force withTime)) old
           (defaultVal (binding sf force withTime)) = None ->
      exists fs',
        loadEnvVars environ (pointerTo (VStruct fs)) force withTime
        = Return (pointerTo (VStruct fs'), nil_error)
        /\ fs' !! i = Some (sf, old)).
Proof.
  split.
  - intros old name dflt withTime layout Hs Hd.
    rewrite loadEnvVar_pointer, (resolved_neither _ _ _ _ _ Hs Hd). reflexivity.
  - intros fs force withTime i sf old Hi Hs Hd.
    destruct (loadEnvVars_struct_lookup fs force withTime i _ Hi) as (fs' & Hrun & Hl).
    exists fs'. split; [exact Hrun|]. rewrite Hl.
    unfold loaded_field. cbn [fst snd].
    destruct (decide (envVarName _ = "")); [reflexivity|].
    destruct (decide (PkgPath sf = "")); [|reflexivity].
    rewrite (resolved_neither _ _ _ _ _ Hs Hd). reflexivity.
Qed.

(** X2. A variable or field whose kind is none of [String], [Int],
    [Float64], [Bool], and that is not a [time.Time] loaded with time
    support, is ignored: it keeps its value and the load returns [nil],
    whatever the environment and the default.  This covers nested
    structs, slices, maps, pointers and the other integer and float
    kinds, and [time.Time] under the loaders without time support. *)
Theorem X2_other_kinds_are_ignored :
  (forall old name dflt withTime layout,
      kindOf old <> reflect.String ->
      kindOf old <> reflect.Int ->
      kindOf old <> reflect.Float64 ->
      kindOf old <> reflect.Bool ->
      withTime && Type_is_Time (mkValue old true false) = false ->
      loadEnvVar environ (pointerTo old) name dflt withTime layout
      = Return (pointerTo old, nil_error))
  /\
  (forall fs force withTime i sf old,
      fs !! i = Some (sf, old) ->
      kindOf old <> reflect.String ->
      kindOf old <> reflect.Int ->
      kindOf old <> reflect.Float64 ->
      kindOf old <> reflect.Bool ->
      withTime && Type_is_Time (mkValue old true false) = false ->
      exists fs',
        loadEnvVars environ (pointerTo (VStruct fs)) force withTime
        = Return (pointerTo (VStruct fs'), nil_error)
        /\ fs' !! i = Some (sf, old)).
Proof.
  split.
  - intros old name dflt withTime layout Hs Hi Hf Hb Ht.
    rewrite loadEnvVar_pointer, resolved_neither; [reflexivity| |];
      right; apply parsed_unconverted; assumption.
  - intros fs force withTime i sf old Hl Hs Hi Hf Hb Ht.
    destruct (loadEnvVars_struct_lookup fs force withTime i _ Hl) as (fs' & Hrun & Hl').
    exists fs'. split; [exact Hrun|]. rewrite Hl'.
    unfold loaded_field. cbn [fst snd].
    destruct (decide (envVarName _ = "")); [reflexivity|].
    destruct (decide (PkgPath sf = "")); [|reflexivity].
    rewrite resolved_neither; [reflexivity| |];
      right; apply parsed_unconverted; assumption.
Qed.

(** X3. Without forced implicit names, a struct field whose [env] tag is
    missing or empty, or starts with a comma (a default but no name), is
    skipped: it keeps its value, even when it is exported and the default
    would parse. *)
Theorem X3_unnamed_field_is_skipped fs withTime i sf old :
  fs !! i = Some (sf, old) ->
  Tag_Get (Tag sf) ENV = ""
  \/ (exists dflt, Tag_Get (Tag sf) ENV = SEP +:+ dflt) ->
  exists fs',
    loadEnvVars environ (pointerTo (VStruct fs)) false withTime
    = Return (pointerTo (VStruct fs'), nil_error)
    /\ fs' !! i = Some (sf, old).
Proof.
  intros Hi Htag.
  destruct (loadEnvVars_struct_lookup fs false withTime i _ Hi) as (fs' & Hrun & Hl).
  exists fs'. split; [exact Hrun|]. rewrite Hl.
  unfold loaded_field. cbn [fst snd].
  assert (Hn : envVarName (binding sf false withTime) = "").
  { rewrite (binding_envVarName sf false withTime false).
    unfold binding, fieldData_of.
    destruct Htag as [E|[dflt E]]; rewrite E.
    - reflexivity.
    - pose proof (SplitN_first_comma "" dflt eq_refl) as Hs.
      change ("" +:+ SEP +:+ dflt) with (SEP +:+ dflt) in Hs.
      rewrite Hs. reflexivity. }
  destruct (decide (envVarName _ = "")); [reflexivity|contradiction].
Qed.

(** X4. With forced implicit names, an exported field without an [env]
    tag is bound to the variable of its own name, with no default: it is
    resolved against that variable alone. *)
Theorem X4_forced_name_is_the_field_name fs withTime i sf old :
  fs !! i = Some (sf, old) ->
  PkgPath sf = "" ->
  Tag_Get (Tag sf) ENV = "" ->
  envVarName (binding sf true withTime) = Name sf
  /\ defaultVal (binding sf true withTime) = ""
  /\ exists fs',
       loadEnvVars environ (pointerTo (VStruct fs)) true withTime
       = Return (pointerTo (VStruct fs'), nil_error)
       /\ fs' !! i
          = Some (sf, resolved withTime (timeLayout (binding sf true withTime)) old
                        (Getenv environ (Name sf)) "").
Proof.
  intros Hi Hx Htag.
  assert (Hn : envVarName (binding sf true withTime) = Name sf).
  { rewrite (binding_envVarName sf true withTime false).
    unfold binding, fieldData_of. rewrite Htag. reflexivity. }
  assert (Hd : defaultVal (binding sf true withTime) = "").
  { rewrite (binding_defaultVal sf true false withTime false).
    unfold binding, fieldData_of. rewrite Htag. reflexivity. }
  split; [exact Hn|]. split; [exact Hd|].
  destruct (loadEnvVars_struct_lookup fs true withTime i _ Hi) as (fs' & Hrun & Hl).
  exists fs'. split; [exact Hrun|]. rewrite Hl.
  unfold loaded_field. cbn [fst snd]. rewrite Hn, Hd.
  destruct (decide (Name sf = "")) as [E|E].
  - rewrite E, resolved_neither; [reflexivity| |]; left; reflexivity.
  - destruct (decide (PkgPath sf = "")); [reflexivity|contradiction].
Qed.

(** *** The flags *)

(** X5. Time support only matters for [time.Time]: on a struct with no
    field of that type, [LoadEnvVarsT] does what [LoadEnvVars] does and
    [LoadEnvVarsTF] what [LoadEnvVarsF] does; on a variable that is no
    [time.Time], [LoadEnvVarT] does what [LoadEnvVar] does, whatever the
    layout. *)
Theorem X5_time_support_only_matters_for_time :
  (forall fs,
      Forall (fun p : StructField * value =>
                Type_is_Time (mkValue p.2 true false) = false) fs ->
      LoadEnvVarsT environ (pointerTo (VStruct fs))
      = LoadEnvVars environ (pointerTo (VStruct fs))
      /\ LoadEnvVarsTF environ (pointerTo (VStruct fs))
         = LoadEnvVarsF environ (pointerTo (VStruct fs)))
  /\
  (forall old name dflt layout,
      Type_is_Time (mkValue old true false) = false ->
      LoadEnvVarT environ (pointerTo old) name dflt layout
      = LoadEnvVar environ (pointerTo old) name dflt).
Proof.
  split.
  - intros fs Hall.
    assert (H : forall force,
               loaded_field environ force true <$> fs
               = loaded_field environ force false <$> fs).
    { intros force. apply fmap_ext_lookup. intros i [sf old] Hi.
      pose proof (Forall_lookup_1 _ _ _ _ Hall Hi) as Ht. cbn [snd] in Ht.
      unfold loaded_field. cbn [fst snd].
      rewrite (binding_envVarName sf force true false).
      rewrite (binding_defaultVal sf force force true false).
      destruct (decide (envVarName _ = "")); [reflexivity|].
      destruct (decide (PkgPath sf = "")); [|reflexivity].
      rewrite (resolved_without_time true false _
                 (timeLayout (binding sf force false)) old _ _ Ht).
      reflexivity. }
    unfold LoadEnvVarsT, LoadEnvVars, LoadEnvVarsTF, LoadEnvVarsF.
    rewrite !loadEnvVars_struct, !H. split; reflexivity.
  - intros old name dflt layout Ht.
    unfold LoadEnvVarT, LoadEnvVar. rewrite !loadEnvVar_pointer.
    rewrite (resolved_without_time true false layout "" old _ _ Ht). reflexivity.
Qed.


(** *** The tag *)

Lemma cut_spec s :
  match cut SEP s with
  | Some (a, b) => s = a +:+ SEP +:+ b /\ no_comma a = true
  | None => no_comma s = true
  end.
Proof.
  induction s as [|c s IH]; [reflexivity|].
  rewrite cut_cons. unfold SEP at 1. cbn [String.prefix].
  destruct (ascii_dec "," c) as [E|E].
  - subst c. assert (Hp : String.prefix "" s = true) by (destruct s; reflexivity).
    rewrite Hp. split; reflexivity.
  - assert (Hc : Ascii.eqb c "," = false) by (apply Ascii.eqb_neq; congruence).
    destruct (cut SEP s) as [[a b]|].
    + destruct IH as [-> Ha]. split; [reflexivity|].
      cbn [no_comma]. rewrite Hc, Ha. reflexivity.
    + cbn [no_comma]. rewrite Hc, IH. reflexivity.
Qed.

Lemma SplitN_SEP_2 s :
  SplitN s SEP 2
  = match cut SEP s with
    | Some (a, b) => [a; b]
    | None => [s]
    end.
Proof.
  unfold SplitN.
  destruct (decide (SEP = "")) as [E|_]; [discriminate E|].
  destruct s as [|c s]; [reflexivity|].
  cbn [String.length].
  destruct (decide (S (String.length s) + 1 < 2)) as [H|H]; [lia|].
  cbn [Nat.sub genSplit_loop].
  destruct (cut SEP (String c s)) as [[a b]|]; reflexivity.
Qed.

(** X7. Without forced names, the tag is made of what is bound: the
    bound name holds no comma, and the [env] tag is either the name alone,
    with no default bound, or the name, a comma and the default. *)
Theorem X7_tag_is_name_comma_default sf f withTime :
  no_comma (envVarName (fieldData_of sf f false withTime)) = true
  /\ ((Tag_Get (Tag sf) ENV = envVarName (fieldData_of sf f false withTime)
       /\ defaultVal (fieldData_of sf f false withTime) = "")
      \/ Tag_Get (Tag sf) ENV
         = envVarName (fieldData_of sf f false withTime) +:+ SEP
             +:+ defaultVal (fieldData_of sf f false withTime)).
Proof.
  pose proof (cut_spec (Tag_Get (Tag sf) ENV)) as Hc.
  unfold fieldData_of. rewrite SplitN_SEP_2, andb_false_r.
  destruct (cut SEP (Tag_Get (Tag sf) ENV)) as [[a b]|].
  - destruct Hc as [Hc Ha]. destruct withTime; (split; [exact Ha|right; exact Hc]).
  - destruct withTime; (split; [exact Hc|left; split; reflexivity]).
Qed.

(** *** The environment *)





(** *** Loads as functions of the target *)

Lemma loaded_field_idempotent force withTime p :
  loaded_field environ force withTime (loaded_field environ force withTime p)
  = loaded_field environ force withTime p.
Proof.
  destruct p as [sf old]. unfold loaded_field at 2. cbn [fst snd].
  destruct (decide (envVarName (binding sf force withTime) = "")) as [E|E].
  - unfold loaded_field. cbn [fst snd].
    destruct (decide (envVarName _ = "")); [reflexivity|contradiction].
  - destruct (decide (PkgPath sf = "")) as [P|P].
    + unfold loaded_field. cbn [fst snd].
      destruct (decide (envVarName _ = "")); [contradiction|].
      destruct (decide (PkgPath sf = "")); [|contradiction].
      rewrite resolved_idempotent. reflexivity.
    + unfold loaded_field. cbn [fst snd].
      destruct (decide (envVarName _ = "")); [contradiction|].
      destruct (decide (PkgPath sf = "")); [contradiction|reflexivity].
Qed.

(** X11. Loading is idempotent: loading again what a load has left, from
    the same environment and with the same arguments, changes nothing and
    returns the same. *)
Theorem X11_loading_twice_is_loading_once :
  (forall ptr force withTime ptr' err,
      loadEnvVars environ ptr force withTime = Return (ptr', err) ->
      loadEnvVars environ ptr' force withTime = Return (ptr', err))
  /\ (forall ptr name dflt withTime layout ptr' err,
         loadEnvVar environ ptr name dflt withTime layout = Return (ptr', err) ->
         loadEnvVar environ ptr' name dflt withTime layout = Return (ptr', err)).
Proof.
  split.
  - intros [|v| |v] force withTime ptr' err H; try discriminate H.
    + injection H as <- <-. reflexivity.
    + destruct v as [b|n|f|s|t|fs|k r];
        try (rewrite loadEnvVars_pointer_not_struct in H by discriminate;
             injection H as <- <-;
             apply loadEnvVars_pointer_not_struct; discriminate).
      * rewrite loadEnvVars_Time in H. injection H as <- <-.
        apply loadEnvVars_Time.
      * rewrite loadEnvVars_struct in H. injection H as <- <-.
        rewrite loadEnvVars_struct, <- list_fmap_compose.
        assert (loaded_field environ force withTime ∘ loaded_field environ force withTime
                  <$> fs
                = loaded_field environ force withTime <$> fs) as ->; [|reflexivity].
        apply fmap_ext_lookup. intros i p _. apply loaded_field_idempotent.
  - intros [|v| |v] name dflt withTime layout ptr' err H; try discriminate H.
    + injection H as <- <-. reflexivity.
    + rewrite loadEnvVar_pointer in H. injection H as <- <-.
      rewrite loadEnvVar_pointer, resolved_idempotent. reflexivity.
Qed.

(** X12. A load never changes what kind of value a variable or field
    holds, nor whether it is a [time.Time]; and a struct load keeps the
    field descriptors (names, tags) in their order. *)
Theorem X12_kinds_and_descriptors_are_kept :
  (forall old name dflt withTime layout,
      exists new,
        loadEnvVar environ (pointerTo old) name dflt withTime layout
        = Return (pointerTo new, nil_error)
        /\ kindOf new = kindOf old
        /\ Type_is_Time (mkValue new true false)
           = Type_is_Time (mkValue old true false))
  /\ (forall fs force withTime,
         exists fs',
           loadEnvVars environ (pointerTo (VStruct fs)) force withTime
           = Return (pointerTo (VStruct fs'), nil_error)
           /\ fst <$> fs' = fst <$> fs
           /\ (fun p => kindOf p.2) <$> fs' = (fun p => kindOf p.2) <$> fs
           /\ (fun p => Type_is_Time (mkValue p.2 true false)) <$> fs'
              = (fun p => Type_is_Time (mkValue p.2 true false)) <$> fs).
Proof.
  split.
  - intros old name dflt withTime layout.
    eexists. split; [apply loadEnvVar_pointer|]. apply resolved_kind.
  - intros fs force withTime.
    eexists. split; [apply loadEnvVars_struct|].
    assert (H : forall p,
               (loaded_field environ force withTime p).1 = p.1
               /\ kindOf (loaded_field environ force withTime p).2 = kindOf p.2
               /\ Type_is_Time (mkValue (loaded_field environ force withTime p).2 true false)
                  = Type_is_Time (mkValue p.2 true false)).
    { intros [sf old]. unfold loaded_field. cbn [fst snd].
      destruct (decide (envVarName _ = "")); [repeat split|].
      destruct (decide (PkgPath sf = "")); [|repeat split].
      cbn [fst snd]. split; [reflexivity|]. apply resolved_kind. }
    rewrite <- !list_fmap_compose.
    repeat split; apply fmap_ext_lookup; intros i p _; cbn [compose]; apply H.
Qed.

(** X13. The struct loader treats a field as the single-field loader
    treats a variable: an exported field bound to a name ends up holding
    what [loadEnvVar] leaves in a variable of the field's value, given the
    field's bound name, default and layout. *)
Theorem X13_struct_field_is_loaded_as_a_single_variable fs force withTime i sf old :
  fs !! i = Some (sf, old) ->
  PkgPath sf = "" ->
  envVarName (binding sf force withTime) <> "" ->
  exists fs' new,
    loadEnvVars environ (pointerTo (VStruct fs)) force withTime
    = Return (pointerTo (VStruct fs'), nil_error)
    /\ fs' !! i = Some (sf, new)
    /\ loadEnvVar environ (pointerTo old)
         (envVarName (binding sf force withTime))
         (defaultVal (binding sf force withTime))
         withTime
         (timeLayout (binding sf force withTime))
       = Return (pointerTo new, nil_error).
Proof.
  intros Hi Hx Hn.
  destruct (loadEnvVars_struct_lookup fs force withTime i _ Hi) as (fs' & Hrun & Hl).
  rewrite (loaded_field_exported environ _ _ _ _ Hx Hn) in Hl.
  eexists fs', _. split; [exact Hrun|]. split; [exact Hl|].
  apply loadEnvVar_pointer.
Qed.

(** X14. The fields of a struct are loaded independently of each other
    and none stops the load: the load of a struct whose fields are those
    of one struct followed by those of another leaves the fields the two
    loads leave, in that order. *)
Theorem X14_fields_are_loaded_independently fs1 fs2 force withTime :
  exists out1 out2,
    loadEnvVars environ (pointerTo (VStruct fs1)) force withTime
    = Return (pointerTo (VStruct out1), nil_error)
    /\ loadEnvVars environ (pointerTo (VStruct fs2)) force withTime
       = Return (pointerTo (VStruct out2), nil_error)
    /\ loadEnvVars environ (pointerTo (VStruct (fs1 ++ fs2))) force withTime
       = Return (pointerTo (VStruct (out1 ++ out2)), nil_error).
Proof.
  eexists _, _. split; [apply loadEnvVars_struct|].
  split; [apply loadEnvVars_struct|].
  rewrite loadEnvVars_struct, fmap_app. reflexivity.
Qed.

(** X15. A string is never rejected: a string variable ends up holding
    the environment text when that is not empty, else the default when
    that is not empty, else what it held; so no load sets a string to the
    empty text. *)
Theorem X15_string_resolution old name dflt withTime layout :
  loadEnvVar environ (pointerTo (VString old)) name dflt withTime layout
  = Return
      (pointerTo
         (VString
            (if decide (Getenv environ name = "")
             then if decide (dflt = "") then old else dflt
             else Getenv environ name)),
       nil_error).
Proof.
  rewrite loadEnvVar_pointer. unfold resolved, usable. cbn [parsed].
  destruct (decide (Getenv environ name = "")); [|reflexivity].
  destruct (decide (dflt = "")); reflexivity.
Qed.

End Further.

(** *** The rendering of errors *)

Lemma append_assoc (a b c : string) : (a +:+ b) +:+ c = a +:+ (b +:+ c).
Proof.
  induction a as [|x a IH]; [reflexivity|].
  change (String x ((a +:+ b) +:+ c) = String x (a +:+ (b +:+ c))).
  rewrite IH. reflexivity.
Qed.

Lemma Join_cons x y rest sep :
  Join (x :: y :: rest) sep = x +:+ sep +:+ Join (y :: rest) sep.
Proof. reflexivity. Qed.

Lemma Join_app l1 l2 sep :
  l1 <> [] -> l2 <> [] ->
  Join (l1 ++ l2) sep = Join l1 sep +:+ sep +:+ Join l2 sep.
Proof.
  intros H1 H2. induction l1 as [|x l1 IH]; [contradiction|].
  destruct l1 as [|y l1].
  - destruct l2 as [|z l2]; [contradiction|]. reflexivity.
  - change ((x :: y :: l1) ++ l2) with (x :: y :: (l1 ++ l2)).
    rewrite !Join_cons.
    change (y :: l1 ++ l2) with ((y :: l1) ++ l2).
    rewrite IH by discriminate.
    rewrite !append_assoc. reflexivity.
Qed.

(** X16. [StructError.Error()] renders the field errors in their order,
    one [FieldError.Error()] each, with a newline between two; it does
    not depend on the [ErrorMsg] the [StructError] carries.  So the
    rendering of two non-empty runs of field errors put together is the
    two renderings with a newline between, and the rendering of one field
    error is that error's own. *)
Theorem X16_StructError_rendering_composes l1 l2 msg msg1 msg2 :
  l1 <> [] -> l2 <> [] ->
  StructError_Error (mkStructError (l1 ++ l2) msg)
  = StructError_Error (mkStructError l1 msg1) +:+ nl
      +:+ StructError_Error (mkStructError l2 msg2)
  /\ forall e, StructError_Error (mkStructError [e] msg) = FieldError_Error e.
Proof.
  intros H1 H2. split; [|reflexivity].
  unfold StructError_Error. cbn [FieldErrors].
  rewrite map_app. apply Join_app.
  - destruct l1; [contradiction|discriminate].
  - destruct l2; [contradiction|discriminate].
Qed.

(** *** The further properties on concrete loads *)

Lemma X1_witness :
  loadEnvVar (lib := golib) testEnvVarsOs (pointerTo (VInt 3)) "TEST_1" "none" false ""
  = Return (pointerTo (VInt 3), nil_error)
  /\ exists fs',
       loadEnvVars (lib := golib) testEnvVarsOs
         (pointerTo (VStruct [(exported "Var1" [("env", "TEST_7")], VBool true)]))
         false false
       = Return (pointerTo (VStruct fs'), nil_error)
       /\ fs' !! 0 = Some (exported "Var1" [("env", "TEST_7")], VBool true).
Proof.
  split.
  - apply (proj1 (X1_total_failure_leaves_the_field (lib := golib) testEnvVarsOs)).
    + right. reflexivity.
    + right. reflexivity.
  - apply (proj2 (X1_total_failure_leaves_the_field (lib := golib) testEnvVarsOs)
             _ false false 0 _ (VBool true)).
    + reflexivity.
    + left. reflexivity.
    + left. reflexivity.
Defined.

Lemma X2_witness :
  loadEnvVar (lib := golib) testEnvVarsOs (pointerTo (VOther reflect.Slice 7))
    "TEST_1" "x" true ""
  = Return (pointerTo (VOther reflect.Slice 7), nil_error)
  /\ exists fs',
       loadEnvVars testEnvVarsOs (pointerTo Type1_zero) false false
       = Return (pointerTo (VStruct fs'), nil_error)
       /\ fs' !! 6
          = Some (exported "Var7" [("env", "TEST_TIME_1"); ("timeLayout", "02/01/2006")],
                  VTime (lib := golib) (1, 1, 1)%Z).
Proof.
  split.
  - apply (proj1 (X2_other_kinds_are_ignored (lib := golib) testEnvVarsOs));
      first [discriminate | reflexivity].
  - apply (proj2 (X2_other_kinds_are_ignored (lib := golib) testEnvVarsOs)
             (fieldsOf Type1_zero) false false 6 _ (VTime (lib := golib) (1, 1, 1)%Z));
      first [discriminate | reflexivity].
Defined.

Lemma X3_witness :
  exists fs',
    loadEnvVars (lib := golib) testEnvVarsOs
      (pointerTo (VStruct [(exported "Port" [("env", ",8080")], VInt 0)])) false false
    = Return (pointerTo (VStruct fs'), nil_error)
    /\ fs' !! 0 = Some (exported "Port" [("env", ",8080")], VInt 0).
Proof.
  apply (X3_unnamed_field_is_skipped (lib := golib) testEnvVarsOs _ false 0).
  - reflexivity.
  - right. exists "8080". reflexivity.
Defined.

Lemma X4_witness :
  exists fs',
    loadEnvVars (lib := golib) testEnvVarsOs
      (pointerTo (VStruct [(exported "TEST_6" [], VInt 0)])) true false
    = Return (pointerTo (VStruct fs'), nil_error)
    /\ fs' !! 0 = Some (exported "TEST_6" [], VInt 6).
Proof.
  destruct (X4_forced_name_is_the_field_name (lib := golib) testEnvVarsOs
              [(exported "TEST_6" [], VInt 0)] false 0 (exported "TEST_6" []) (VInt 0)
              eq_refl eq_refl eq_refl)
    as (_ & _ & fs' & Hrun & Hl).
  exists fs'. split; [exact Hrun|exact Hl].
Defined.

Lemma X5_witness :
  LoadEnvVarsT (lib := golib) testEnvVarsOs
    (pointerTo (VStruct [(exported "Var6" [("env", "TEST_6")], VInt 0)]))
  = LoadEnvVars testEnvVarsOs
      (pointerTo (VStruct [(exported "Var6" [("env", "TEST_6")], VInt 0)]))
  /\ LoadEnvVarT (lib := golib) testEnvVarsOs (pointerTo (VInt 0)) "TEST_6" "" "02/01/2006"
     = LoadEnvVar testEnvVarsOs (pointerTo (VInt 0)) "TEST_6" "".
Proof.
  split.
  - apply (proj1 (X5_time_support_only_matters_for_time (lib := golib) testEnvVarsOs)
             [(exported "Var6" [("env", "TEST_6")], VInt 0)]).
    repeat constructor.
  - apply (proj2 (X5_time_support_only_matters_for_time (lib := golib) testEnvVarsOs)).
    reflexivity.
Defined.



Lemma X11_witness :
  loadEnvVars testEnvVarsOs (pointerTo Type1_expected) false true
  = Return (pointerTo Type1_expected, nil_error)
  /\ loadEnvVar (lib := golib) testEnvVarsOs (pointerTo (VInt 6)) "TEST_6" "" false ""
     = Return (pointerTo (VInt 6), nil_error).
Proof.
  split.
  - apply (proj1 (X11_loading_twice_is_loading_once (lib := golib) testEnvVarsOs)
             (pointerTo Type1_zero)).
    reflexivity.
  - apply (proj2 (X11_loading_twice_is_loading_once (lib := golib) testEnvVarsOs)
             (pointerTo (VInt 0))).
    reflexivity.
Defined.

Lemma X13_witness :
  exists fs' new,
    loadEnvVars testEnvVarsOs (pointerTo Type1_zero) false true
    = Return (pointerTo (VStruct fs'), nil_error)
    /\ fs' !! 5 = Some (exported "Var6" [("env", "TEST_6")], new)
    /\ loadEnvVar (lib := golib) testEnvVarsOs (pointerTo (VInt 0)) "TEST_6" "" true ""
       = Return (pointerTo new, nil_error).
Proof.
  apply (X13_struct_field_is_loaded_as_a_single_variable (lib := golib) testEnvVarsOs
           (fieldsOf Type1_zero) false true 5 (exported "Var6" [("env", "TEST_6")]) (VInt 0)).
  - reflexivity.
  - reflexivity.
  - discriminate.
Defined.

Lemma X16_witness :
  StructError_Error
    (mkStructError [mkFieldError "Var1" 4%Z "first"; mkFieldError "Var2" 2%Z "second"] "")
  = StructError_Error (mkStructError [mkFieldError "Var1" 4%Z "first"] "") +:+ nl
      +:+ StructError_Error (mkStructError [mkFieldError "Var2" 2%Z "second"] "").
Proof.
  apply (X16_StructError_rendering_composes
           [mkFieldError "Var1" 4%Z "first"] [mkFieldError "Var2" 2%Z "second"] "" "" "");
    discriminate.
Defined.
